(** * CalascioNES: the bus dispatcher and the audio ring buffer

    A shallow embedding of [src/src/Bus.cpp] (address decoding, the
    controller and light-gun serial protocol, interrupt aggregation) and of
    the audio consumer [audio_callback] of [src/main.cpp], followed by the
    properties the specification states about them.

    Conventions of the embedding:
    - a C++ integer is a [Z]; a conversion to [uint8_t] or [uint16_t] that the
      source performs implicitly (assignment to a narrower variable) is
      written out as [u8] or [u16];
    - a C++ [bool] is a [bool]; [int_to_bool] and [bool_to_int] are the two
      implicit conversions;
    - the collaborators of the bus (PPU, APU, cartridge) are not part of this
      development: a call into one of them is a field of [Collaborators].
      They hold a pointer back to the bus ([set_light_sensed] and
      [assert_irq] exist to be called by them), so such a call is a
      transformer of the whole bus state, not only of the callee's. *)

From Stdlib Require Import ZArith Lia Bool.
From stdpp Require Import base list.

Local Open Scope Z_scope.

(** ** Machine integers *)

Definition u8 (v : Z) : Z := v mod 256.
Definition u16 (v : Z) : Z := v mod 65536.

Definition bool_to_int (c : bool) : Z := if c then 1 else 0.
Definition int_to_bool (v : Z) : bool := negb (v =? 0).

(** ** The light gun *)

(** Modelled from the spec: [struct Zapper] is declared in Bus.h, which is
    not among the sources; §3 gives its fields, [x] and [y] (pixel
    coordinates), [trigger] (bool) and [light_sensed] (bool). *)
Module Zapper.
Record t : Type := mk
  { x : Z;
    y : Z;
    trigger : bool;
    light_sensed : bool }.

Definition with_x (z : t) (v : Z) : t := mk v (y z) (trigger z) (light_sensed z).
Definition with_y (z : t) (v : Z) : t := mk (x z) v (trigger z) (light_sensed z).
Definition with_trigger (z : t) (v : bool) : t := mk (x z) (y z) v (light_sensed z).
Definition with_light_sensed (z : t) (v : bool) : t := mk (x z) (y z) (trigger z) v.
End Zapper.

(** ** The bus *)

Section Interconnect.
Context {Cartridge PPU APU CPU : Type}.

(** Modelled from the spec: the declared types of the members of
    [class Bus], which are in Bus.h, not among the sources.  The members are
    those Bus.cpp uses; §3 gives [strobe] (bool), two 8-bit shift registers,
    the [IRQ_line] bitmask (returned by [get_irq] as a [uint8_t]) and the
    [zapper_connected] flag. *)
Record Bus : Type := mkBus
  { cart : Cartridge;
    ppu : PPU;
    apu : APU;
    cpu : CPU;
    strobe : bool;
    shift_register_controller1 : Z;
    shift_register_controller2 : Z;
    zapper_connected : bool;
    zapper : Zapper.t;
    NMI : bool;
    IRQ_line : Z }.

Definition set_strobe (b : Bus) (v : bool) : Bus :=
  mkBus (cart b) (ppu b) (apu b) (cpu b) v
    (shift_register_controller1 b) (shift_register_controller2 b)
    (zapper_connected b) (zapper b) (NMI b) (IRQ_line b).

Definition set_shift_register_controller1 (b : Bus) (v : Z) : Bus :=
  mkBus (cart b) (ppu b) (apu b) (cpu b) (strobe b)
    v (shift_register_controller2 b)
    (zapper_connected b) (zapper b) (NMI b) (IRQ_line b).

Definition set_shift_register_controller2 (b : Bus) (v : Z) : Bus :=
  mkBus (cart b) (ppu b) (apu b) (cpu b) (strobe b)
    (shift_register_controller1 b) v
    (zapper_connected b) (zapper b) (NMI b) (IRQ_line b).

Definition set_zapper_state (b : Bus) (z : Zapper.t) : Bus :=
  mkBus (cart b) (ppu b) (apu b) (cpu b) (strobe b)
    (shift_register_controller1 b) (shift_register_controller2 b)
    (zapper_connected b) z (NMI b) (IRQ_line b).

Definition set_NMI (b : Bus) (v : bool) : Bus :=
  mkBus (cart b) (ppu b) (apu b) (cpu b) (strobe b)
    (shift_register_controller1 b) (shift_register_controller2 b)
    (zapper_connected b) (zapper b) v (IRQ_line b).

Definition set_IRQ_line (b : Bus) (v : Z) : Bus :=
  mkBus (cart b) (ppu b) (apu b) (cpu b) (strobe b)
    (shift_register_controller1 b) (shift_register_controller2 b)
    (zapper_connected b) (zapper b) (NMI b) v.

Definition set_ppu (b : Bus) (v : PPU) : Bus :=
  mkBus (cart b) v (apu b) (cpu b) (strobe b)
    (shift_register_controller1 b) (shift_register_controller2 b)
    (zapper_connected b) (zapper b) (NMI b) (IRQ_line b).

Definition set_apu (b : Bus) (v : APU) : Bus :=
  mkBus (cart b) (ppu b) v (cpu b) (strobe b)
    (shift_register_controller1 b) (shift_register_controller2 b)
    (zapper_connected b) (zapper b) (NMI b) (IRQ_line b).

Definition set_cart (b : Bus) (v : Cartridge) : Bus :=
  mkBus v (ppu b) (apu b) (cpu b) (strobe b)
    (shift_register_controller1 b) (shift_register_controller2 b)
    (zapper_connected b) (zapper b) (NMI b) (IRQ_line b).

(** The calls Bus.cpp makes into its collaborators. *)
Record Collaborators : Type := mkCollaborators
  { PPU_cpu_reads : Z -> Bus -> Z * Bus;
    PPU_cpu_writes : Z -> Z -> Bus -> Bus;
    PPU_check_target_hit : Z -> Z -> Bus -> Bus;
    APU_cpu_reads : Z -> Bus -> Z * Bus;
    APU_cpu_writes : Z -> Z -> Bus -> Bus;
    Cartridge_cpu_reads : Z -> Bus -> Z * Bus;
    Cartridge_cpu_writes : Z -> Z -> Bus -> Bus }.

Variable dev : Collaborators.

(** [data = callee(...)], with [data] a [uint8_t]. *)
Definition returned (r : Z * Bus) : Z * Bus := (u8 (fst r), snd r).

(** [uint8_t Bus::cpu_reads(uint16_t address)] (Bus.cpp, lines 22-84). *)
Definition cpu_reads (b : Bus) (address : Z) : Z * Bus :=
  let data := 0x00 in
  if (address >=? 0x2000) && (address <? 0x4000) then
    returned (PPU_cpu_reads dev (Z.land address 0x7) b)
  else if (address >=? 0x4000) && (address <? 0x4018) then
    if address =? 0x4016 then
      let '(data, b) :=
        if strobe b then
          (u8 (Z.land (shift_register_controller1 b) 1), b)
        else
          let data := u8 (Z.land (shift_register_controller1 b) 1) in
          (data,
           set_shift_register_controller1 b
             (u8 (Z.shiftr (shift_register_controller1 b) 1))) in
      (u8 (Z.lor data 0x40), b)
    else if address =? 0x4017 then
      let '(data, b) :=
        if zapper_connected b then
          (u8 (shift_register_controller2 b),
           set_zapper_state b (Zapper.with_light_sensed (zapper b) true))
        else if strobe b then
          (u8 (Z.land (shift_register_controller2 b) 1), b)
        else
          let data := u8 (Z.land (shift_register_controller2 b) 1) in
          let b := set_shift_register_controller2 b
                     (u8 (Z.shiftr (shift_register_controller2 b) 1)) in
          let b := if zapper_connected b && (data =? 0x00)
                   then set_zapper_state b (Zapper.with_trigger (zapper b) true)
                   else b in
          (data, b) in
      (u8 (Z.lor data 0x40), b)
    else
      returned (APU_cpu_reads dev address b)
  else if (address >=? 0x4020) && (address <=? 0xFFFF) then
    returned (Cartridge_cpu_reads dev address b)
  else
    (data, b).

(** [void Bus::cpu_writes(uint16_t address, uint8_t value)] (Bus.cpp, lines
    86-119).  [controller_state] is the global of main.cpp (line 47) that
    Bus.cpp declares [extern]: the value it holds when the write happens. *)
Definition cpu_writes (controller_state : Z) (b : Bus) (address value : Z) : Bus :=
  if (address >=? 0x2000) && (address <? 0x4000) then
    PPU_cpu_writes dev (Z.land address 0x7) value b
  else if (address >=? 0x4000) && (address <? 0x4018) then
    if address =? 0x4016 then
      let b := set_strobe b (int_to_bool (Z.land value 1)) in
      if strobe b then
        let b := set_shift_register_controller1 b
                   (u8 (Z.land controller_state 0xFF)) in
        if negb (zapper_connected b) then
          set_shift_register_controller2 b
            (u8 (Z.land (Z.shiftr controller_state 8) 0xFF))
        else b
      else b
    else
      APU_cpu_writes dev address value b
  else if (address >=? 0x4020) && (address <=? 0xFFFF) then
    Cartridge_cpu_writes dev address value b
  else b.

(** [void Bus::soft_reset()] (lines 148-152). *)
Definition soft_reset (b : Bus) : Bus :=
  let b := set_NMI b false in
  let b := set_shift_register_controller2 b (u8 0x0000) in
  set_shift_register_controller1 b (shift_register_controller2 b).

(** [void Bus::update_zapper_coordinates(int x, int y)] (lines 160-168). *)
Definition update_zapper_coordinates (b : Bus) (x y : Z) : Bus :=
  let b := set_zapper_state b (Zapper.with_x (zapper b) x) in
  let b := set_zapper_state b (Zapper.with_y (zapper b) y) in
  let b := set_zapper_state b (Zapper.with_trigger (zapper b) true) in
  let b := set_shift_register_controller2 b
             (u8 (Z.land (shift_register_controller2 b) 0xE6)) in
  set_shift_register_controller2 b
    (u8 (Z.lor (shift_register_controller2 b)
               (Z.shiftl (bool_to_int (Zapper.trigger (zapper b))) 4))).

(** [void Bus::fire_zapper()] (lines 170-175). *)
Definition fire_zapper (b : Bus) : Bus :=
  let b := set_zapper_state b (Zapper.with_trigger (zapper b) false) in
  let b := set_shift_register_controller2 b
             (u8 (Z.lor (Z.land (shift_register_controller2 b)
                                (Z.lnot (Z.shiftl 1 4)))
                        (Z.shiftl (bool_to_int (Zapper.trigger (zapper b))) 4))) in
  PPU_check_target_hit dev (Zapper.x (zapper b)) (Zapper.y (zapper b)) b.

(** [void Bus::set_light_sensed(bool hit)] (lines 177-181). *)
Definition set_light_sensed (b : Bus) (hit : bool) : Bus :=
  let b := set_zapper_state b (Zapper.with_light_sensed (zapper b) (negb hit)) in
  set_shift_register_controller2 b
    (u8 (Z.lor (Z.land (shift_register_controller2 b)
                       (Z.lnot (Z.shiftl 1 3)))
               (Z.shiftl (bool_to_int (Zapper.light_sensed (zapper b))) 3))).

(** [assert_irq], [ack_irq] and [get_irq] (lines 183-196).  An [IRQ] is
    the integer value of the enumerator. *)
Definition assert_irq (b : Bus) (irq : Z) : Bus :=
  set_IRQ_line b (u8 (Z.lor (IRQ_line b) irq)).

Definition ack_irq (b : Bus) (irq : Z) : Bus :=
  set_IRQ_line b (u8 (Z.land (IRQ_line b) (Z.lnot irq))).

Definition get_irq (b : Bus) : Z := u8 (IRQ_line b).

(** [n] successive reads of one address: the bytes read, first read
    first, and the bus after the last read. *)
Fixpoint read_times (n : nat) (b : Bus) (address : Z) : list Z * Bus :=
  match n with
  | O => ([], b)
  | S n =>
      let '(data, b) := cpu_reads b address in
      let '(rest, b) := read_times n b address in
      (data :: rest, b)
  end.

(** What the member types promise: both shift registers and the interrupt
    mask are bytes. *)
Definition byte_range (v : Z) : Prop := 0 <= v < 256.

End Interconnect.

Arguments Bus : clear implicits.
Arguments Collaborators : clear implicits.

(** ** Interrupt sources *)

(** Modelled from the spec: [enum IRQ] is declared in Bus.h, which is not
    among the sources; §3 and §4.1 give one bit of the mask per interrupt
    source.  Source number [k] is the enumerator whose value is bit [k]. *)
Definition IRQ_source (k : Z) : Z := Z.shiftl 1 k.

Definition is_source (k : Z) : Prop := 0 <= k < 8.

(** A history of calls made by the interrupt sources. *)
Inductive irq_call : Type :=
  | Assert (k : Z)
  | Ack (k : Z).

Definition irq_call_source (c : irq_call) : Z :=
  match c with Assert k => k | Ack k => k end.

Definition irq_step {Cartridge PPU APU CPU}
    (b : Bus Cartridge PPU APU CPU) (c : irq_call) : Bus Cartridge PPU APU CPU :=
  match c with
  | Assert k => assert_irq b (IRQ_source k)
  | Ack k => ack_irq b (IRQ_source k)
  end.

Definition irq_run {Cartridge PPU APU CPU}
    (b : Bus Cartridge PPU APU CPU) (h : list irq_call) : Bus Cartridge PPU APU CPU :=
  foldl irq_step b h.

(** Source [k] is outstanding after history [h]: it has asserted and has not
    acknowledged since. *)
Definition outstanding_step (k : Z) (o : bool) (c : irq_call) : bool :=
  match c with
  | Assert j => if j =? k then true else o
  | Ack j => if j =? k then false else o
  end.

Definition outstanding (h : list irq_call) (k : Z) : bool :=
  foldl (outstanding_step k) false h.

(** ** Collaborators that record the calls they receive *)

(** A concrete instance of the interface, used to run the bus on concrete
    inputs: each collaborator is the list of the calls it has received, the
    latest last, and every read returns [0xA5]. *)
Inductive Access : Type :=
  | Read (address : Z)
  | Write (address value : Z)
  | TargetHit (x y : Z).

Definition RecBus : Type := Bus (list Access) (list Access) (list Access) unit.

Definition recorder : Collaborators (list Access) (list Access) (list Access) unit :=
  {| PPU_cpu_reads := fun a b => (0xA5, set_ppu b (ppu b ++ [Read a]));
     PPU_cpu_writes := fun a v b => set_ppu b (ppu b ++ [Write a v]);
     PPU_check_target_hit := fun x y b => set_ppu b (ppu b ++ [TargetHit x y]);
     APU_cpu_reads := fun a b => (0xA5, set_apu b (apu b ++ [Read a]));
     APU_cpu_writes := fun a v b => set_apu b (apu b ++ [Write a v]);
     Cartridge_cpu_reads := fun a b => (0xA5, set_cart b (cart b ++ [Read a]));
     Cartridge_cpu_writes := fun a v b => set_cart b (cart b ++ [Write a v]) |}.

(** A bus at power-up: nothing latched, no interrupt pending, no light gun. *)
Definition rec_bus : RecBus :=
  mkBus [] [] [] tt false 0 0 false (Zapper.mk 0 0 false false) false 0.

(** ** The audio ring buffer (main.cpp) *)

Definition BUFFER_SIZE : Z := 8192.

(** The globals [audio_buffer], [write_pos] and [read_pos] (lines 35-38). *)
Record Audio : Type := mkAudio
  { audio_buffer : list Z;
    write_pos : Z;
    read_pos : Z }.

Definition set_read_pos (s : Audio) (v : Z) : Audio :=
  mkAudio (audio_buffer s) (write_pos s) v.

(** [std::copy(src + first, src + last, dst + d_first)]: the samples
    [first], ..., [last - 1] of [src] overwrite those of [dst] from index
    [d_first] on.  (An access past the end of either array is undefined in
    C++; here it is dropped.) *)
Definition std_copy (src : list Z) (first last : Z) (dst : list Z) (d_first : Z) : list Z :=
  list_inserts (Z.to_nat d_first)
    (take (Z.to_nat (last - first)) (drop (Z.to_nat first) src)) dst.

(** [std::fill(dst + first, dst + last, value)]. *)
Definition std_fill (dst : list Z) (first last : Z) (value : Z) : list Z :=
  list_inserts (Z.to_nat first) (replicate (Z.to_nat (last - first)) value) dst.

(** The local [available_data] of [audio_callback] (line 226). *)
Definition available_data (s : Audio) : Z :=
  if write_pos s >=? read_pos s
  then write_pos s - read_pos s
  else (BUFFER_SIZE - read_pos s) + write_pos s.

(** [void audio_callback(void* userdata, Uint8* stream, int len)] (lines
    223-243).  [output] is the memory behind [stream] seen as 16-bit samples,
    before the call; the result is that memory after the call, and the
    globals.  [len] is the byte count the audio device passes, which is not
    negative, so that [len / sizeof(int16_t)] is [len / 2]. *)
Definition audio_callback (s : Audio) (output : list Z) (len : Z) : list Z * Audio :=
  let samples_needed := len / 2 in
  if available_data s >=? samples_needed then
    let output :=
      if read_pos s + samples_needed >? BUFFER_SIZE then
        let first_chunk_size := BUFFER_SIZE - read_pos s in
        let output := std_copy (audio_buffer s) (read_pos s) BUFFER_SIZE output 0 in
        std_copy (audio_buffer s) 0 (samples_needed - first_chunk_size)
          output first_chunk_size
      else
        std_copy (audio_buffer s) (read_pos s) (read_pos s + samples_needed) output 0 in
    (output,
     set_read_pos s (u16 (Z.land (read_pos s + samples_needed) (BUFFER_SIZE - 1))))
  else
    (std_fill output 0 samples_needed 0, s).

(** Modelled from the spec: the producer of samples is the APU, which is not
    among the sources ([nes.set_audio_buffer(audio_buffer, BUFFER_SIZE,
    &write_pos)], line 133, hands it the buffer and the cursor).  §4.2: the
    producer writes samples at [write_pos], "advancing [write_pos] modulo
    buffer size"; §3: the cursor is "wrapped by a bitmask since size is a
    power of two". *)
Definition produce_sample (s : Audio) (sample : Z) : Audio :=
  mkAudio (<[Z.to_nat (write_pos s) := sample]> (audio_buffer s))
    (u16 (Z.land (write_pos s + 1) (BUFFER_SIZE - 1)))
    (read_pos s).

Definition produce (s : Audio) (samples : list Z) : Audio :=
  foldl produce_sample s samples.

(** The buffer has [BUFFER_SIZE] entries and both cursors index it. *)
Definition audio_wf (s : Audio) : Prop :=
  Z.of_nat (length (audio_buffer s)) = BUFFER_SIZE /\
  (0 <= write_pos s < BUFFER_SIZE) /\
  (0 <= read_pos s < BUFFER_SIZE).

(** A buffer holding twelve unread samples across its end. *)
Definition ringing_audio : Audio :=
  mkAudio (replicate (Z.to_nat BUFFER_SIZE) 7) 4 8184.

(** A buffer of silence with both cursors eight samples before the end. *)
Definition quiet_audio : Audio :=
  mkAudio (replicate (Z.to_nat BUFFER_SIZE) 0) 8184 8184.

(** ** Vocabulary of the properties *)

(** The byte a controller port returns for button [i] of the pad bitmask
    [B]: the button in bit 0, and the open-bus bit 6. *)
Definition pad_bit (B i : Z) : Z := Z.lor (bool_to_int (Z.testbit B i)) 0x40.

(** The address ranges of §4.1 of the specification, each as the
    specification words it. *)
Definition in_PPU_range (a : Z) : bool := (0x2000 <=? a) && (a <? 0x4000).
Definition is_controller_port (a : Z) : bool := (a =? 0x4016) || (a =? 0x4017).
Definition in_APU_range (a : Z) : bool :=
  (0x4000 <=? a) && (a <? 0x4018) && negb (is_controller_port a).
Definition in_Cartridge_range (a : Z) : bool := (0x4020 <=? a) && (a <=? 0xFFFF).
Definition unmapped (a : Z) : bool :=
  negb (in_PPU_range a || is_controller_port a || in_APU_range a
        || in_Cartridge_range a).

Section Protocol.
Context {Cartridge PPU APU CPU : Type}.
Implicit Types b : Bus Cartridge PPU APU CPU.

(** What a read of a controller port does to the bus; no collaborator
    takes part. *)
Definition controller_port_read b (a : Z) : Z * Bus Cartridge PPU APU CPU :=
  if a =? 0x4016 then
    (Z.lor (Z.land (shift_register_controller1 b) 1) 0x40,
     if strobe b then b
     else set_shift_register_controller1 b
            (u8 (Z.shiftr (shift_register_controller1 b) 1)))
  else if zapper_connected b then
    (u8 (Z.lor (u8 (shift_register_controller2 b)) 0x40),
     set_zapper_state b (Zapper.with_light_sensed (zapper b) true))
  else
    (Z.lor (Z.land (shift_register_controller2 b) 1) 0x40,
     if strobe b then b
     else set_shift_register_controller2 b
            (u8 (Z.shiftr (shift_register_controller2 b) 1))).

(** What a write of [value] to 0x4016 does to the bus while the controller
    bitmask is [controller_state]; no collaborator takes part. *)
Definition strobe_write (controller_state : Z) b (value : Z) : Bus Cartridge PPU APU CPU :=
  if int_to_bool (Z.land value 1) then
    mkBus (cart b) (ppu b) (apu b) (cpu b) true
      (Z.land controller_state 0xFF)
      (if zapper_connected b then shift_register_controller2 b
       else Z.land (Z.shiftr controller_state 8) 0xFF)
      (zapper_connected b) (zapper b) (NMI b) (IRQ_line b)
  else set_strobe b false.

(** The bus on which [fire_zapper] runs the hit test: the trigger is
    released and bit 4 of the port-2 register is clear. *)
Definition trigger_released b : Bus Cartridge PPU APU CPU :=
  mkBus (cart b) (ppu b) (apu b) (cpu b) (strobe b)
    (shift_register_controller1 b)
    (Z.land (u8 (shift_register_controller2 b)) 0xEF)
    (zapper_connected b)
    (Zapper.with_trigger (zapper b) false) (NMI b) (IRQ_line b).
End Protocol.

(** ** The pattern-table path of the bus (Bus.cpp) *)

Section PatternTable.
Context {Cartridge PPU APU CPU : Type}.

(** The calls [ppu_reads] and [ppu_writes] make into the cartridge. *)
Record ChrCollaborators : Type := mkChrCollaborators
  { Cartridge_ppu_reads : Z -> Bus Cartridge PPU APU CPU -> Z * Bus Cartridge PPU APU CPU;
    Cartridge_ppu_writes : Z -> Z -> Bus Cartridge PPU APU CPU -> Bus Cartridge PPU APU CPU }.

Variable chr : ChrCollaborators.

(** [uint8_t Bus::ppu_reads(uint16_t address)] (lines 123-131). *)
Definition ppu_reads (b : Bus Cartridge PPU APU CPU) (address : Z)
    : Z * Bus Cartridge PPU APU CPU :=
  let data := 0x00 in
  if (address >=? 0x0000) && (address <? 0x2000) then
    returned (Cartridge_ppu_reads chr address b)
  else (data, b).

(** [void Bus::ppu_writes(uint16_t address, uint8_t value)] (lines 133-136). *)
Definition ppu_writes (b : Bus Cartridge PPU APU CPU) (address value : Z)
    : Bus Cartridge PPU APU CPU :=
  Cartridge_ppu_writes chr address value b.
End PatternTable.

Arguments ChrCollaborators : clear implicits.

(** A cartridge that records the pattern-table calls it receives. *)
Definition chr_recorder : ChrCollaborators (list Access) (list Access) (list Access) unit :=
  {| Cartridge_ppu_reads := fun a b => (0xA5, set_cart b (cart b ++ [Read a]));
     Cartridge_ppu_writes := fun a v b => set_cart b (cart b ++ [Write a v]) |}.

(** ** The strobe pulse of main.cpp *)

(** [void update_controller_state(Bus* bus)] (main.cpp, lines 270-279);
    [handle_events] sends the same two writes after a touch event (lines
    347 and 348). *)
Definition update_controller_state {Cartridge PPU APU CPU : Type}
    (dev : Collaborators Cartridge PPU APU CPU) (controller_state : Z)
    (b : Bus Cartridge PPU APU CPU) : Bus Cartridge PPU APU CPU :=
  let b := cpu_writes dev controller_state b 0x4016 1 in
  cpu_writes dev controller_state b 0x4016 0.

(** ** The touch buttons of main.cpp *)

(** Conversion to [int]. *)
Definition to_int (v : Z) : Z := (v + 2 ^ 31) mod 2 ^ 32 - 2 ^ 31.

Inductive FingerEvent : Type :=
  | SDL_FINGERDOWN
  | SDL_FINGERUP.

Definition is_FINGERDOWN (e : FingerEvent) : bool :=
  match e with SDL_FINGERDOWN => true | SDL_FINGERUP => false end.

Definition is_FINGERUP (e : FingerEvent) : bool :=
  match e with SDL_FINGERDOWN => false | SDL_FINGERUP => true end.

Section Touch.
(** The point and rectangle types of the SDL library and its test of a
    point against a rectangle. *)
Context {SDL_Point SDL_Rect : Type}.
Variable SDL_PointInRect : SDL_Point -> SDL_Rect -> bool.

(** [struct VirtualButton] (lines 64-68). *)
Record VirtualButton : Type := mkVirtualButton
  { rect : SDL_Rect;
    nes_bit : Z;
    fingerId : Z }.

Definition set_fingerId (button : VirtualButton) (v : Z) : VirtualButton :=
  mkVirtualButton (rect button) (nes_bit button) v.

(** The body of the loop over the buttons in [handle_events] (lines
    309-326), run on one button.  [type] and [finger] are [event.type] and
    [event.tfinger.fingerId]; the state is the global [controller_state]
    and the local [touch_on_button]. *)
Definition touch_button (type : FingerEvent) (finger : Z) (touch_point : SDL_Point)
    (st : Z * bool) (button : VirtualButton) : (Z * bool) * VirtualButton :=
  let '(controller_state, touch_on_button) := st in
  if SDL_PointInRect touch_point (rect button) then
    let touch_on_button := true in
    if is_FINGERDOWN type then
      if fingerId button =? -1 then
        let button := set_fingerId button (to_int finger) in
        let controller_state := u16 (Z.lor controller_state (nes_bit button)) in
        ((controller_state, touch_on_button), button)
      else ((controller_state, touch_on_button), button)
    else
      if fingerId button =? finger then
        let button := set_fingerId button (-1) in
        let controller_state :=
          u16 (Z.land controller_state (Z.lnot (nes_bit button))) in
        ((controller_state, touch_on_button), button)
      else ((controller_state, touch_on_button), button)
  else if is_FINGERUP type && (fingerId button =? finger) then
    let button := set_fingerId button (-1) in
    let controller_state :=
      u16 (Z.land controller_state (Z.lnot (nes_bit button))) in
    ((controller_state, touch_on_button), button)
  else ((controller_state, touch_on_button), button).

(** [for (auto& button : virtual_controller)] (line 308): the buttons are
    visited in order and updated in place. *)
Fixpoint touch_buttons (type : FingerEvent) (finger : Z) (touch_point : SDL_Point)
    (st : Z * bool) (buttons : list VirtualButton)
    : (Z * bool) * list VirtualButton :=
  match buttons with
  | [] => (st, [])
  | button :: rest =>
      let '(st, button) := touch_button type finger touch_point st button in
      let '(st, rest) := touch_buttons type finger touch_point st rest in
      (st, button :: rest)
  end.

(** Button [k] of a table is the one whose [nes_bit] is bit [k]; it is held
    when a finger is recorded on it. *)
Definition held (button : VirtualButton) : bool := negb (fingerId button =? -1).

(** Every button of the table owns one bit of the 16-bit mask, and no two
    buttons own the same bit. *)
Definition table_wf (bits : list Z) (buttons : list VirtualButton) : Prop :=
  NoDup bits /\
  Forall (fun k => 0 <= k < 16) bits /\
  (nes_bit <$> buttons) = (Z.shiftl 1 <$> bits).

(** The mask agrees with the table: the bit of a button is set exactly when
    the button is held. *)
Definition mask_agrees (controller_state : Z) (bits : list Z)
    (buttons : list VirtualButton) : Prop :=
  (Z.testbit controller_state <$> bits) = (held <$> buttons).
(** The event presses a button when the point is on it, the finger goes
    down and no finger is recorded on it; it releases a button when the
    finger goes up and is the one recorded on it, wherever the point is. *)
Definition presses (type : FingerEvent) (touch_point : SDL_Point)
    (button : VirtualButton) : bool :=
  SDL_PointInRect touch_point (rect button) && is_FINGERDOWN type
  && (fingerId button =? -1).

Definition releases (type : FingerEvent) (finger : Z) (button : VirtualButton) : bool :=
  is_FINGERUP type && (fingerId button =? finger).
End Touch.

Arguments VirtualButton : clear implicits.

(** [SDL_Rect] as its four members [x], [y], [w], [h], and the test SDL
    documents for [SDL_PointInRect]; they stand in for the library when the
    touch code is run on the table of main.cpp. *)
Definition Rect4 : Type := (Z * Z * Z * Z)%type.

Definition point_in_rect4 (p : Z * Z) (r : Rect4) : bool :=
  let '(x, y, w, h) := r in
  (fst p >=? x) && (fst p <? x + w) && (snd p >=? y) && (snd p <? y + h).

(** [SCALE], [SCREEN_WIDTH], [SCREEN_HEIGHT] (lines 30-32) and the table
    [virtual_controller] (lines 71-83), no finger down. *)
Definition SCALE : Z := 3.
Definition SCREEN_WIDTH : Z := 256 * SCALE.
Definition SCREEN_HEIGHT : Z := 240 * SCALE.

Definition virtual_controller : list (VirtualButton Rect4) :=
  [ mkVirtualButton (50, SCREEN_HEIGHT - 200, 70, 70) (Z.shiftl 1 6) (-1);
    mkVirtualButton (190, SCREEN_HEIGHT - 200, 70, 70) (Z.shiftl 1 7) (-1);
    mkVirtualButton (120, SCREEN_HEIGHT - 270, 70, 70) (Z.shiftl 1 4) (-1);
    mkVirtualButton (120, SCREEN_HEIGHT - 130, 70, 70) (Z.shiftl 1 5) (-1);
    mkVirtualButton (SCREEN_WIDTH - 120, SCREEN_HEIGHT - 150, 80, 80) (Z.shiftl 1 0) (-1);
    mkVirtualButton (SCREEN_WIDTH - 220, SCREEN_HEIGHT - 150, 80, 80) (Z.shiftl 1 1) (-1);
    mkVirtualButton (SCREEN_WIDTH / 2 + 10, SCREEN_HEIGHT - 60, 100, 40) (Z.shiftl 1 3) (-1);
    mkVirtualButton (SCREEN_WIDTH / 2 - 110, SCREEN_HEIGHT - 60, 100, 40) (Z.shiftl 1 2) (-1) ].

(** The bit numbers of [virtual_controller], in the order of the table. *)
Definition virtual_controller_bits : list Z := [6; 7; 4; 5; 0; 1; 3; 2].

(** The table after finger 0 has gone down on the button A, and that
    button as it then is. *)
Definition table_with_A_held : list (VirtualButton Rect4) :=
  snd (touch_buttons point_in_rect4 SDL_FINGERDOWN 0 (680, 600) (0, false)
         virtual_controller).

Definition button_A_held : VirtualButton Rect4 :=
  mkVirtualButton (SCREEN_WIDTH - 120, SCREEN_HEIGHT - 150, 80, 80) (Z.shiftl 1 0) 0.

(** The light-gun coordinates [handle_events] passes to
    [send_mouse_coordinates] (line 333); [/] on [int] truncates. *)
Definition zapper_column (touch_x window_w : Z) : Z :=
  Z.quot (touch_x * 256) window_w.

Definition zapper_row (touch_y padding window_h : Z) : Z :=
  Z.quot ((touch_y - padding) * 240) (window_h - padding).

(** ** More vocabulary of the properties *)

(** Sample [i] of a read of the ring that starts at [read_pos]. *)
Definition ring_sample (s : Audio) (i : nat) : option Z :=
  audio_buffer s !! Z.to_nat ((read_pos s + Z.of_nat i) mod BUFFER_SIZE).

(** The [n] samples from [read_pos] on: one range of the buffer, or its end
    followed by its front. *)
Definition ring_chunk (s : Audio) (n : Z) : list Z :=
  if read_pos s + n >? BUFFER_SIZE
  then drop (Z.to_nat (read_pos s)) (audio_buffer s) ++
       take (Z.to_nat (read_pos s + n - BUFFER_SIZE)) (audio_buffer s)
  else take (Z.to_nat n) (drop (Z.to_nat (read_pos s)) (audio_buffer s)).

(** * Properties *)

(** ** Arithmetic of the conversions *)

Lemma u8_small (v : Z) : 0 <= v < 256 -> u8 v = v.
Proof. intros H. unfold u8. apply Z.mod_small. exact H. Qed.

Lemma u8_range (v : Z) : 0 <= u8 v < 256.
Proof. unfold u8. apply Z.mod_pos_bound. lia. Qed.

Lemma u8_land_ones (v : Z) : u8 v = Z.land v 0xFF.
Proof. unfold u8. change 0xFF with (Z.ones 8). rewrite Z.land_ones by lia. reflexivity. Qed.

Lemma u8_testbit (v i : Z) :
  0 <= i -> Z.testbit (u8 v) i = Z.testbit v i && (i <? 8).
Proof.
  intros Hi. rewrite u8_land_ones. change 0xFF with (Z.ones 8).
  rewrite Z.land_spec. f_equal.
  destruct (Z.ltb_spec i 8).
  - apply Z.ones_spec_low. lia.
  - apply Z.ones_spec_high. lia.
Qed.

Lemma bit0_mod2 (v : Z) : Z.land v 1 = v mod 2.
Proof. change 1 with (Z.ones 1). rewrite Z.land_ones by lia. reflexivity. Qed.

Lemma bit0_cases (v : Z) : Z.land v 1 = 0 \/ Z.land v 1 = 1.
Proof. rewrite bit0_mod2. pose proof (Z.mod_pos_bound v 2). lia. Qed.

Lemma bit0_testbit (v : Z) : Z.land v 1 = bool_to_int (Z.testbit v 0).
Proof. rewrite bit0_mod2, Z.bit0_mod. reflexivity. Qed.

(** The byte a controller port puts on the bus: bit 0 of the register, and
    bit 6 set. *)
Lemma port_byte (v : Z) :
  u8 (Z.lor (u8 (Z.land v 1)) 0x40) = Z.lor (Z.land v 1) 0x40.
Proof. destruct (bit0_cases v) as [-> | ->]; reflexivity. Qed.

Lemma byte_high (c i : Z) : 0 <= c < 256 -> 8 <= i -> Z.testbit c i = false.
Proof.
  intros Hc Hi. rewrite <- (u8_small c Hc), u8_testbit by lia.
  destruct (Z.ltb_spec i 8); [lia | apply andb_false_r].
Qed.

(** Bit-level reasoning on bytes: two integers are equal when their bits
    are; a bit index is one of 0, ..., 7, or lies above the byte. *)
Ltac bit_index i :=
  let H := fresh in
  destruct (Z.ltb_spec i 8) as [H|H];
  [ assert (i = 0 \/ i = 1 \/ i = 2 \/ i = 3 \/ i = 4 \/ i = 5 \/ i = 6 \/ i = 7)
      as [->|[->|[->|[->|[->|[->|[->| ->]]]]]]] by lia
  | ].

Ltac bit_cases :=
  repeat match goal with
         | |- context [Z.testbit ?v ?k] => is_var v; destruct (Z.testbit v k)
         end.

Ltac bitwise :=
  apply Z.bits_inj'; intros ?i ?Hi;
  repeat first
    [ rewrite u8_testbit by lia | rewrite Z.lor_spec | rewrite Z.land_spec
    | rewrite Z.lnot_spec by lia | rewrite Z.shiftr_spec by lia ].

Lemma lor_bit6_byte (v : Z) : 0 <= v < 256 -> u8 (Z.lor (u8 v) 0x40) = Z.lor v 0x40.
Proof.
  intros Hv. rewrite (u8_small v Hv). bitwise. bit_index i.
  9: rewrite (byte_high v), (byte_high 0x40) by lia.
  all: bit_cases; reflexivity.
Qed.

Lemma shiftr_byte (v : Z) : 0 <= v < 256 -> 0 <= Z.shiftr v 1 < 256.
Proof.
  intros Hv. rewrite Z.shiftr_div_pow2 by lia. change (2 ^ 1) with 2.
  split; [apply Z.div_pos; lia | apply Z.div_lt_upper_bound; lia].
Qed.

Lemma land_byte (v : Z) : 0 <= Z.land v 0xFF < 256.
Proof. rewrite <- u8_land_ones. apply u8_range. Qed.

Lemma land_mask_byte (v m : Z) : 0 <= m < 256 -> 0 <= Z.land v m < 256.
Proof.
  intros Hm. replace (Z.land v m) with (u8 (Z.land v m)); [apply u8_range|].
  bitwise. bit_index i.
  9: rewrite (byte_high m) by (exact Hm || lia).
  all: bit_cases; reflexivity.
Qed.

(** Unfolds the member updates down to the record. *)
Ltac bus_fields :=
  cbv [set_strobe set_shift_register_controller1 set_shift_register_controller2
       set_zapper_state set_NMI set_IRQ_line set_ppu set_apu set_cart]; cbn.

Section BusProperties.
Context {Cartridge PPU APU CPU : Type}.
Variable dev : Collaborators Cartridge PPU APU CPU.
Implicit Types b : Bus Cartridge PPU APU CPU.

(** *** Reads of the controller ports *)

Lemma cpu_reads_4016 b :
  cpu_reads dev b 0x4016 =
    (Z.lor (Z.land (shift_register_controller1 b) 1) 0x40,
     if strobe b then b
     else set_shift_register_controller1 b
            (u8 (Z.shiftr (shift_register_controller1 b) 1))).
Proof.
  unfold cpu_reads. simpl. destruct (strobe b); rewrite port_byte; reflexivity.
Qed.

Lemma cpu_reads_4017_pad b :
  zapper_connected b = false ->
  cpu_reads dev b 0x4017 =
    (Z.lor (Z.land (shift_register_controller2 b) 1) 0x40,
     if strobe b then b
     else set_shift_register_controller2 b
            (u8 (Z.shiftr (shift_register_controller2 b) 1))).
Proof.
  intros Hz. unfold cpu_reads. simpl. rewrite Hz.
  destruct (strobe b); simpl; rewrite ?Hz; simpl; rewrite port_byte; reflexivity.
Qed.

Lemma read_times_fixed n b address data :
  cpu_reads dev b address = (data, b) ->
  read_times dev n b address = (replicate n data, b).
Proof.
  intros H. induction n as [|n IH]; simpl.
  - reflexivity.
  - rewrite H, IH. reflexivity.
Qed.

(** C9: while [strobe] is 1 and no light gun is connected, a read of
    0x4016 and a read of 0x4017 return bit 0 of the port's shift register
    with bit 6 set and leave the bus, the register included, as it was;
    so does any number of successive reads. *)
Theorem latched_reads_do_not_shift b (n : nat) :
  strobe b = true ->
  zapper_connected b = false ->
  cpu_reads dev b 0x4016 =
    (Z.lor (Z.land (shift_register_controller1 b) 1) 0x40, b) /\
  cpu_reads dev b 0x4017 =
    (Z.lor (Z.land (shift_register_controller2 b) 1) 0x40, b) /\
  read_times dev n b 0x4016 =
    (replicate n (Z.lor (Z.land (shift_register_controller1 b) 1) 0x40), b) /\
  read_times dev n b 0x4017 =
    (replicate n (Z.lor (Z.land (shift_register_controller2 b) 1) 0x40), b).
Proof.
  intros Hs Hz.
  assert (H1 : cpu_reads dev b 0x4016 =
                 (Z.lor (Z.land (shift_register_controller1 b) 1) 0x40, b))
    by (rewrite cpu_reads_4016, Hs; reflexivity).
  assert (H2 : cpu_reads dev b 0x4017 =
                 (Z.lor (Z.land (shift_register_controller2 b) 1) 0x40, b))
    by (rewrite cpu_reads_4017_pad, Hs by exact Hz; reflexivity).
  repeat split; auto using read_times_fixed.
Qed.

(** *** The light gun on port 2 *)

(** C7: with a light gun connected, a read of 0x4017 returns the port-2
    shift register itself with bit 6 set, does not shift the register and
    sets [light_sensed]; any number of successive reads does the same. *)
Theorem zapper_read_is_direct b (n : nat) :
  zapper_connected b = true ->
  byte_range (shift_register_controller2 b) ->
  let b' := set_zapper_state b (Zapper.with_light_sensed (zapper b) true) in
  cpu_reads dev b 0x4017 = (Z.lor (shift_register_controller2 b) 0x40, b') /\
  shift_register_controller2 b' = shift_register_controller2 b /\
  Zapper.light_sensed (zapper b') = true /\
  read_times dev (S n) b 0x4017 =
    (replicate (S n) (Z.lor (shift_register_controller2 b) 0x40), b').
Proof.
  intros Hz Hr b'.
  assert (Hread : forall c, zapper_connected c = true ->
            cpu_reads dev c 0x4017 =
              (u8 (Z.lor (u8 (shift_register_controller2 c)) 0x40),
               set_zapper_state c (Zapper.with_light_sensed (zapper c) true))).
  { intros c Hc. unfold cpu_reads. simpl. rewrite Hc. reflexivity. }
  assert (H1 : cpu_reads dev b 0x4017 =
                 (Z.lor (shift_register_controller2 b) 0x40, b')).
  { rewrite Hread by exact Hz. rewrite lor_bit6_byte by exact Hr. reflexivity. }
  repeat split; try exact H1.
  change (read_times dev (S n) b 0x4017) with
    (let '(data, c) := cpu_reads dev b 0x4017 in
     let '(rest, c) := read_times dev n c 0x4017 in (data :: rest, c)).
  rewrite H1.
  rewrite (read_times_fixed n b' 0x4017 (Z.lor (shift_register_controller2 b) 0x40)).
  - reflexivity.
  - rewrite Hread by exact Hz. simpl. rewrite lor_bit6_byte by exact Hr. reflexivity.
Qed.

(** *** Soft reset *)

(** C10: [soft_reset] zeroes both shift registers and clears the pending
    NMI; every other member of the bus keeps its value. *)
Theorem soft_reset_frame b :
  soft_reset b =
    mkBus (cart b) (ppu b) (apu b) (cpu b) (strobe b) 0 0
      (zapper_connected b) (zapper b) false (IRQ_line b) /\
  shift_register_controller1 (soft_reset b) = 0 /\
  shift_register_controller2 (soft_reset b) = 0 /\
  NMI (soft_reset b) = false /\
  strobe (soft_reset b) = strobe b /\
  IRQ_line (soft_reset b) = IRQ_line b /\
  zapper_connected (soft_reset b) = zapper_connected b /\
  Zapper.x (zapper (soft_reset b)) = Zapper.x (zapper b) /\
  Zapper.y (zapper (soft_reset b)) = Zapper.y (zapper b) /\
  Zapper.trigger (zapper (soft_reset b)) = Zapper.trigger (zapper b) /\
  Zapper.light_sensed (zapper (soft_reset b)) = Zapper.light_sensed (zapper b) /\
  cart (soft_reset b) = cart b /\
  ppu (soft_reset b) = ppu b /\
  apu (soft_reset b) = apu b /\
  cpu (soft_reset b) = cpu b.
Proof. repeat split. Qed.

(** *** The strobe *)

(** A write of [value] to 0x4016, as the source performs it inline. *)
Lemma cpu_writes_4016 controller_state b value :
  cpu_writes dev controller_state b 0x4016 value =
    strobe_write controller_state b value.
Proof.
  unfold cpu_writes, strobe_write. simpl.
  destruct (int_to_bool (Z.land value 1)); [|reflexivity].
  rewrite !u8_small by apply land_byte. bus_fields.
  destruct (zapper_connected b); reflexivity.
Qed.

(** C3, as the code has it: a write of [value] to 0x4016 sets [strobe] to
    bit 0 of [value]; whenever that bit is 1, whatever [strobe] was
    before, the low byte of the controller bitmask is loaded into port
    1's register and, unless a light gun is connected, the high byte into
    port 2's; when the bit is 0 both registers keep their values.  Nothing
    else changes. *)
Theorem strobe_write_latches_on_level controller_state b value :
  let b' := cpu_writes dev controller_state b 0x4016 value in
  let active := int_to_bool (Z.land value 1) in
  strobe b' = active /\
  shift_register_controller1 b' =
    (if active then Z.land controller_state 0xFF
     else shift_register_controller1 b) /\
  shift_register_controller2 b' =
    (if active && negb (zapper_connected b)
     then Z.land (Z.shiftr controller_state 8) 0xFF
     else shift_register_controller2 b) /\
  zapper_connected b' = zapper_connected b /\
  zapper b' = zapper b /\ NMI b' = NMI b /\ IRQ_line b' = IRQ_line b /\
  cart b' = cart b /\ ppu b' = ppu b /\ apu b' = apu b /\ cpu b' = cpu b.
Proof.
  intros b' active. subst b'. rewrite cpu_writes_4016. unfold strobe_write. fold active.
  destruct active, (zapper_connected b) eqn:Hz; simpl; rewrite ?Hz; repeat split.
Qed.

(** *** The serial protocol of port 1 *)

Lemma pad_bit_shiftr (v : Z) (i : nat) :
  pad_bit (Z.shiftr v 1) (Z.of_nat i) = pad_bit v (Z.of_nat (S i)).
Proof.
  unfold pad_bit. rewrite Z.shiftr_spec by lia.
  replace (Z.of_nat i + 1) with (Z.of_nat (S i)) by lia. reflexivity.
Qed.

(** With [strobe] low, [n] reads of 0x4016 return the bits of the
    register from bit 0 upwards. *)
Lemma shift_out (n : nat) : forall b,
  strobe b = false ->
  byte_range (shift_register_controller1 b) ->
  fst (read_times dev n b 0x4016) =
    (fun i : nat => pad_bit (shift_register_controller1 b) (Z.of_nat i)) <$> seq 0 n.
Proof.
  induction n as [|n IH]; intros b Hs Hr.
  - reflexivity.
  - cbn [read_times]. rewrite cpu_reads_4016, Hs.
    set (b1 := set_shift_register_controller1 b _).
    specialize (IH b1 Hs).
    destruct (read_times dev n b1 0x4016) as [rest c]. cbn [fst] in *.
    rewrite IH.
    + cbn [seq fmap list_fmap]. f_equal.
      * unfold pad_bit. rewrite bit0_testbit. reflexivity.
      * rewrite <- fmap_S_seq, <- list_fmap_compose.
        apply list_fmap_ext. intros _ i _. cbn.
        rewrite u8_small by (apply shiftr_byte; exact Hr).
        apply pad_bit_shiftr.
    + cbn. apply u8_range.
Qed.

Lemma pad_bit_low_byte (B i : Z) :
  0 <= i < 8 -> pad_bit (Z.land B 0xFF) i = pad_bit B i.
Proof.
  intros Hi. unfold pad_bit. rewrite <- u8_land_ones, u8_testbit by lia.
  replace (i <? 8) with true by lia. rewrite andb_true_r. reflexivity.
Qed.

(** C2: after [cpu_writes(0x4016, 1)] and [cpu_writes(0x4016, 0)] with
    the controller bitmask at [B] and no light gun connected, eight reads
    of 0x4016 return the bits 0, ..., 7 of [B & 0xFF] in that order, each
    with bit 6 set, and the ninth read returns 0x40.  For [B = 1] the
    first read returns 0x41 and the second 0x40. *)
Theorem controller_serial_protocol (B : Z) b :
  zapper_connected b = false ->
  fst (read_times dev 9
         (cpu_writes dev B (cpu_writes dev B b 0x4016 1) 0x4016 0) 0x4016) =
    [ pad_bit (Z.land B 0xFF) 0; pad_bit (Z.land B 0xFF) 1;
      pad_bit (Z.land B 0xFF) 2; pad_bit (Z.land B 0xFF) 3;
      pad_bit (Z.land B 0xFF) 4; pad_bit (Z.land B 0xFF) 5;
      pad_bit (Z.land B 0xFF) 6; pad_bit (Z.land B 0xFF) 7; 0x40 ] /\
  fst (read_times dev 2
         (cpu_writes dev 1 (cpu_writes dev 1 b 0x4016 1) 0x4016 0) 0x4016) =
    [ 0x41; 0x40 ].
Proof.
  intros _.
  assert (Hlatched : forall c,
            strobe (cpu_writes dev c (cpu_writes dev c b 0x4016 1) 0x4016 0) = false /\
            shift_register_controller1
              (cpu_writes dev c (cpu_writes dev c b 0x4016 1) 0x4016 0) =
              Z.land c 0xFF).
  { intros c. rewrite !cpu_writes_4016. split; reflexivity. }
  split.
  - destruct (Hlatched B) as [Hs Hr].
    rewrite shift_out; [ | exact Hs | rewrite Hr; apply land_byte ].
    rewrite Hr. cbn [seq fmap list_fmap Z.of_nat Pos.of_succ_nat Pos.succ].
    repeat f_equal. change (Z.of_nat 8) with 8.
    unfold pad_bit. rewrite (byte_high (Z.land B 0xFF) 8) by (apply land_byte || lia).
    reflexivity.
  - destruct (Hlatched 1) as [Hs Hr].
    rewrite shift_out; [ | exact Hs | rewrite Hr; apply land_byte ].
    rewrite Hr. reflexivity.
Qed.

(** *** Address decoding *)

Lemma ranges_partition (a : Z) :
  bool_to_int (in_PPU_range a) + bool_to_int (is_controller_port a)
  + bool_to_int (in_APU_range a) + bool_to_int (in_Cartridge_range a)
  + bool_to_int (unmapped a) = 1.
Proof.
  unfold unmapped, in_APU_range, in_PPU_range, is_controller_port,
    in_Cartridge_range.
  destruct (Z.leb_spec 0x2000 a), (Z.ltb_spec a 0x4000), (Z.leb_spec 0x4000 a),
    (Z.ltb_spec a 0x4018), (Z.eqb_spec a 0x4016), (Z.eqb_spec a 0x4017),
    (Z.leb_spec 0x4020 a), (Z.leb_spec a 0xFFFF); cbn; lia.
Qed.

Lemma cpu_reads_decode b (a : Z) :
  cpu_reads dev b a =
    if in_PPU_range a then returned (PPU_cpu_reads dev (Z.land a 0x7) b)
    else if is_controller_port a then controller_port_read b a
    else if in_APU_range a then returned (APU_cpu_reads dev a b)
    else if in_Cartridge_range a then returned (Cartridge_cpu_reads dev a b)
    else (0x00, b).
Proof.
  unfold in_APU_range, in_PPU_range, is_controller_port, in_Cartridge_range.
  destruct (Z.eqb_spec a 0x4016) as [-> | H16].
  { rewrite cpu_reads_4016. reflexivity. }
  destruct (Z.eqb_spec a 0x4017) as [-> | H17].
  { unfold cpu_reads, controller_port_read. cbn.
    destruct (zapper_connected b) eqn:Hz; [reflexivity|].
    destruct (strobe b); bus_fields; rewrite ?Hz; cbn; rewrite port_byte;
      reflexivity. }
  unfold cpu_reads. rewrite !Z.geb_leb.
  apply Z.eqb_neq in H16, H17. rewrite H16, H17.
  destruct (Z.leb_spec 0x2000 a), (Z.ltb_spec a 0x4000), (Z.leb_spec 0x4000 a),
    (Z.ltb_spec a 0x4018), (Z.leb_spec 0x4020 a), (Z.leb_spec a 0xFFFF);
    cbn; try reflexivity; lia.
Qed.

Lemma cpu_writes_decode (controller_state : Z) b (a value : Z) :
  cpu_writes dev controller_state b a value =
    if in_PPU_range a then PPU_cpu_writes dev (Z.land a 0x7) value b
    else if a =? 0x4016 then strobe_write controller_state b value
    else if in_APU_range a || (a =? 0x4017) then APU_cpu_writes dev a value b
    else if in_Cartridge_range a then Cartridge_cpu_writes dev a value b
    else b.
Proof.
  unfold in_APU_range, in_PPU_range, is_controller_port, in_Cartridge_range.
  destruct (Z.eqb_spec a 0x4016) as [-> | H16].
  { rewrite cpu_writes_4016. reflexivity. }
  unfold cpu_writes. rewrite !Z.geb_leb.
  apply Z.eqb_neq in H16. rewrite H16.
  destruct (Z.eqb_spec a 0x4017) as [-> | H17]; [reflexivity|].
  destruct (Z.leb_spec 0x2000 a), (Z.ltb_spec a 0x4000), (Z.leb_spec 0x4000 a),
    (Z.ltb_spec a 0x4018), (Z.leb_spec 0x4020 a), (Z.leb_spec a 0xFFFF);
    cbn; try reflexivity; lia.
Qed.

(** C1, as the code has it: every address lies in exactly one of the
    ranges PPU, controller port, APU, cartridge, unmapped.  A read of
    [a] goes to the PPU with [a & 0x7] on [[0x2000,0x4000)], is the
    controller protocol at 0x4016 and 0x4017, goes to the APU elsewhere
    in [[0x4000,0x4018)] and to the cartridge on [[0x4020,0xFFFF]];
    anywhere else it returns 0x00 and leaves the bus as it was.  A write
    decodes alike, except at 0x4017, which is forwarded to the APU: of the
    two ports only 0x4016 is handled by the bus on a write.  A write
    anywhere else does nothing. *)
Theorem address_decoding (controller_state : Z) b (a value : Z) :
  bool_to_int (in_PPU_range a) + bool_to_int (is_controller_port a)
  + bool_to_int (in_APU_range a) + bool_to_int (in_Cartridge_range a)
  + bool_to_int (unmapped a) = 1 /\
  cpu_reads dev b a =
    (if in_PPU_range a then returned (PPU_cpu_reads dev (Z.land a 0x7) b)
     else if is_controller_port a then controller_port_read b a
     else if in_APU_range a then returned (APU_cpu_reads dev a b)
     else if in_Cartridge_range a then returned (Cartridge_cpu_reads dev a b)
     else (0x00, b)) /\
  cpu_writes dev controller_state b a value =
    (if in_PPU_range a then PPU_cpu_writes dev (Z.land a 0x7) value b
     else if a =? 0x4016 then strobe_write controller_state b value
     else if in_APU_range a || (a =? 0x4017) then APU_cpu_writes dev a value b
     else if in_Cartridge_range a then Cartridge_cpu_writes dev a value b
     else b) /\
  (unmapped a = true ->
   cpu_reads dev b a = (0x00, b) /\
   cpu_writes dev controller_state b a value = b).
Proof.
  split; [apply ranges_partition|].
  split; [apply cpu_reads_decode|].
  split; [apply cpu_writes_decode|].
  intros Hu. rewrite cpu_reads_decode, cpu_writes_decode.
  unfold unmapped in Hu. apply negb_true_iff in Hu.
  repeat (apply orb_false_iff in Hu; destruct Hu as [Hu ?]).
  assert (H16 : (a =? 0x4016) = false).
  { unfold is_controller_port in *.
    destruct (a =? 0x4016); [discriminate | reflexivity]. }
  assert (H17 : (a =? 0x4017) = false).
  { unfold is_controller_port in *.
    destruct (a =? 0x4017); [|reflexivity]. rewrite orb_true_r in *. discriminate. }
  repeat match goal with H : _ = false |- _ => rewrite H end.
  split; reflexivity.
Qed.

(** *** Light-gun commands *)

Lemma fire_after_aim_register (s : Z) :
  Z.land (u8 (u8 (Z.lor (u8 (Z.land s 0xE6)) (Z.shiftl 1 4)))) 0xEF =
  Z.land s 0xE6.
Proof.
  bitwise. bit_index i.
  9: rewrite (byte_high 0xE6), (byte_high 0xEF) by lia.
  all: bit_cases; cbn; rewrite ?andb_false_r; reflexivity.
Qed.

Lemma release_register (s : Z) :
  u8 (Z.lor (Z.land s (Z.lnot (Z.shiftl 1 4))) (Z.shiftl 0 4)) =
  Z.land (u8 s) 0xEF.
Proof.
  bitwise. bit_index i.
  9: rewrite (byte_high 0xEF) by lia.
  all: bit_cases; cbn; rewrite ?andb_false_r; reflexivity.
Qed.

Lemma sensor_bit (s : Z) (c : bool) (i : Z) :
  0 <= i ->
  Z.testbit
    (u8 (Z.lor (Z.land s (Z.lnot (Z.shiftl 1 3))) (Z.shiftl (bool_to_int c) 3))) i =
  if i =? 3 then c else Z.testbit (u8 s) i.
Proof.
  intros Hi. rewrite !u8_testbit, Z.lor_spec, Z.land_spec, Z.lnot_spec by lia.
  bit_index i.
  9: { replace (i =? 3) with false by lia. rewrite !andb_false_r. reflexivity. }
  all: destruct c; bit_cases; reflexivity.
Qed.

Lemma fire_zapper_eq b :
  fire_zapper dev b =
    PPU_check_target_hit dev (Zapper.x (zapper b)) (Zapper.y (zapper b))
      (trigger_released b).
Proof.
  unfold fire_zapper, trigger_released. bus_fields.
  rewrite release_register. reflexivity.
Qed.

(** *** The members stay bytes *)

End BusProperties.

(** ** The light gun *)

(** C8: [update_zapper_coordinates(x, y)] followed by [fire_zapper()] is
    one call of the PPU hit test, with the coordinates [(x, y)], made on a
    bus whose trigger is already released ([trigger] is false and bit 4 of
    the port-2 register is clear); a recording PPU receives exactly that
    one call.  The same holds of [fire_zapper()] on any bus, with the
    stored coordinates.  [set_light_sensed(hit)] stores [!hit] in
    [light_sensed], makes bit 3 of the port-2 register equal to [!hit] and
    leaves its other bits as they were. *)
Theorem zapper_fire_and_sense {Cartridge PPU APU CPU : Type}
    (dev : Collaborators Cartridge PPU APU CPU) (b : Bus Cartridge PPU APU CPU)
    (rb : RecBus) (x y : Z) (hit : bool) :
  let aimed := update_zapper_coordinates b x y in
  let sensed := set_light_sensed b hit in
  fire_zapper dev aimed = PPU_check_target_hit dev x y (trigger_released aimed) /\
  Zapper.trigger (zapper (trigger_released aimed)) = false /\
  Z.testbit (shift_register_controller2 (trigger_released aimed)) 4 = false /\
  ppu (fire_zapper recorder (update_zapper_coordinates rb x y)) =
    ppu rb ++ [TargetHit x y] /\
  fire_zapper dev b =
    PPU_check_target_hit dev (Zapper.x (zapper b)) (Zapper.y (zapper b))
      (trigger_released b) /\
  Zapper.trigger (zapper (trigger_released b)) = false /\
  Z.testbit (shift_register_controller2 (trigger_released b)) 4 = false /\
  Zapper.light_sensed (zapper sensed) = negb hit /\
  Z.testbit (shift_register_controller2 sensed) 3 = negb hit /\
  Z.land (shift_register_controller2 sensed) 0xF7 =
    Z.land (u8 (shift_register_controller2 b)) 0xF7.
Proof.
  intros aimed sensed.
  assert (Hbit4 : forall s, Z.testbit (Z.land (u8 s) 0xEF) 4 = false).
  { intros s. rewrite Z.land_spec. apply andb_false_r. }
  split; [subst aimed; rewrite fire_zapper_eq; reflexivity|].
  split; [reflexivity|].
  split; [apply Hbit4|].
  split; [rewrite fire_zapper_eq; reflexivity|].
  split; [apply fire_zapper_eq|].
  split; [reflexivity|].
  split; [apply Hbit4|].
  split; [reflexivity|].
  subst sensed.
  change (shift_register_controller2 (set_light_sensed b hit)) with
    (u8 (Z.lor (Z.land (shift_register_controller2 b) (Z.lnot (Z.shiftl 1 3)))
               (Z.shiftl (bool_to_int (negb hit)) 3))).
  split.
  - rewrite sensor_bit by lia. reflexivity.
  - apply Z.bits_inj'. intros i Hi. rewrite !Z.land_spec, sensor_bit by lia.
    destruct (Z.eqb_spec i 3) as [-> | _]; [|reflexivity].
    cbn. rewrite !andb_false_r. reflexivity.
Qed.

(** After aiming, the register on which the hit test runs has the trigger
    bit, the sensor bit and bit 0 clear. *)
Lemma aimed_register {Cartridge PPU APU CPU : Type}
    (b : Bus Cartridge PPU APU CPU) (x y : Z) :
  shift_register_controller2 (trigger_released (update_zapper_coordinates b x y)) =
  Z.land (shift_register_controller2 b) 0xE6.
Proof.
  exact (fire_after_aim_register (shift_register_controller2 b)).
Qed.

(** ** The strobe is level-triggered *)

(** C3, as stated, fails: with [strobe] already 1 and port 1's register
    holding 0, a second write of 1 to 0x4016, made while the controller
    bitmask is 1, loads the register again. *)
Lemma relatch_while_strobe_high :
  let b := cpu_writes recorder 0 rec_bus 0x4016 1 in
  strobe b = true /\
  shift_register_controller1 b = 0 /\
  shift_register_controller1 (cpu_writes recorder 1 b 0x4016 1) = 1 /\
  shift_register_controller1 (cpu_writes recorder 1 b 0x4016 1) <>
    shift_register_controller1 b.
Proof. cbn. repeat split. discriminate. Qed.

(** ** Writes to 0x4017 *)

(** C1, as stated, fails for writes: 0x4017 is a controller port, and a
    read of it reaches no collaborator, but a write to it is forwarded to
    the APU. *)
Lemma write_4017_reaches_APU :
  is_controller_port 0x4017 = true /\
  apu (snd (cpu_reads recorder rec_bus 0x4017)) = apu rec_bus /\
  apu (cpu_writes recorder 0 rec_bus 0x4017 0xC0) = [Write 0x4017 0xC0] /\
  apu (cpu_writes recorder 0 rec_bus 0x4017 0xC0) <> apu rec_bus.
Proof. cbn. repeat split. discriminate. Qed.

(** ** Interrupt aggregation *)

Section Interrupts.
Context {Cartridge PPU APU CPU : Type}.
Implicit Types b : Bus Cartridge PPU APU CPU.

Lemma IRQ_source_testbit (k i : Z) :
  0 <= k -> Z.testbit (IRQ_source k) i = (k =? i).
Proof.
  intros Hk. unfold IRQ_source. rewrite Z.shiftl_1_l.
  apply Z.pow2_bits_eqb. exact Hk.
Qed.

Lemma assert_irq_testbit b (k i : Z) :
  is_source k -> is_source i ->
  Z.testbit (IRQ_line (assert_irq b (IRQ_source k))) i =
  Z.testbit (IRQ_line b) i || (k =? i).
Proof.
  intros Hk Hi. unfold is_source in *. cbn.
  rewrite u8_testbit, Z.lor_spec, IRQ_source_testbit by lia.
  replace (i <? 8) with true by lia. apply andb_true_r.
Qed.

Lemma ack_irq_testbit b (k i : Z) :
  is_source k -> is_source i ->
  Z.testbit (IRQ_line (ack_irq b (IRQ_source k))) i =
  Z.testbit (IRQ_line b) i && negb (k =? i).
Proof.
  intros Hk Hi. unfold is_source in *. cbn.
  rewrite u8_testbit, Z.land_spec, Z.lnot_spec, IRQ_source_testbit by lia.
  replace (i <? 8) with true by lia. apply andb_true_r.
Qed.

(** The bit of a source in the mask follows the history of its calls. *)
Lemma irq_run_testbit (h : list irq_call) : forall b (k : Z),
  Forall (fun c => is_source (irq_call_source c)) h ->
  is_source k ->
  Z.testbit (IRQ_line (irq_run b h)) k =
  foldl (outstanding_step k) (Z.testbit (IRQ_line b) k) h.
Proof.
  induction h as [|c h IH]; intros b k Hh Hk.
  - reflexivity.
  - inversion Hh as [|? ? Hc Hh']; subst.
    unfold irq_run in *. cbn [foldl]. rewrite IH by assumption. f_equal.
    destruct c as [j|j]; cbn [irq_step outstanding_step irq_call_source] in *.
    + rewrite assert_irq_testbit by assumption.
      destruct (j =? k); [apply orb_true_r | apply orb_false_r].
    + rewrite ack_irq_testbit by assumption.
      destruct (j =? k); [apply andb_false_r | apply andb_true_r].
Qed.

Lemma get_irq_zero b :
  get_irq b = 0 <->
  forall k, is_source k -> Z.testbit (IRQ_line b) k = false.
Proof.
  unfold get_irq, is_source. split.
  - intros H0 k Hk.
    assert (Hb : Z.testbit (u8 (IRQ_line b)) k = false)
      by (rewrite H0; apply Z.bits_0).
    rewrite u8_testbit in Hb by lia.
    replace (k <? 8) with true in Hb by lia.
    rewrite andb_true_r in Hb. exact Hb.
  - intros H. apply Z.bits_inj'. intros i Hi.
    rewrite u8_testbit, Z.bits_0 by lia.
    destruct (Z.ltb_spec i 8).
    + rewrite H by lia. reflexivity.
    + apply andb_false_r.
Qed.

Lemma get_irq_assert b (irq : Z) :
  byte_range irq ->
  get_irq (assert_irq b irq) = Z.lor (get_irq b) irq.
Proof.
  intros Hr. unfold get_irq. cbn. generalize (IRQ_line b). intros l.
  bitwise. bit_index i.
  9: rewrite (byte_high irq) by (exact Hr || lia).
  all: bit_cases; reflexivity.
Qed.

Lemma get_irq_ack b (irq : Z) :
  get_irq (ack_irq b irq) = Z.land (get_irq b) (Z.lnot irq).
Proof.
  unfold get_irq. cbn. generalize (IRQ_line b). intros l.
  bitwise. bit_index i; bit_cases; cbn; rewrite ?andb_false_r; reflexivity.
Qed.

Lemma IRQ_source_byte (k : Z) : is_source k -> byte_range (IRQ_source k).
Proof.
  unfold is_source, byte_range, IRQ_source. intros Hk.
  assert (k = 0 \/ k = 1 \/ k = 2 \/ k = 3 \/ k = 4 \/ k = 5 \/ k = 6 \/ k = 7)
    as [->|[->|[->|[->|[->|[->|[->| ->]]]]]]] by lia;
    vm_compute; (split; [discriminate | reflexivity]).
Qed.

(** C4: [assert_irq] ORs the bit of its source into the mask, [ack_irq]
    ANDs it out, and [get_irq] returns the mask as it is stored.  After two distinct
    sources have asserted, both their bits are set; after the first has
    acknowledged, its bit is clear and the other's is still set.  From a
    clear mask, after any history of calls, [get_irq] is zero exactly when
    no source is outstanding, that is when every source that asserted has
    acknowledged since. *)
Theorem irq_aggregation b (k1 k2 : Z) (h : list irq_call) :
  is_source k1 ->
  is_source k2 ->
  k1 <> k2 ->
  Forall (fun c => is_source (irq_call_source c)) h ->
  let both := assert_irq (assert_irq b (IRQ_source k1)) (IRQ_source k2) in
  get_irq (assert_irq b (IRQ_source k1)) = Z.lor (get_irq b) (IRQ_source k1) /\
  get_irq (ack_irq b (IRQ_source k1)) =
    Z.land (get_irq b) (Z.lnot (IRQ_source k1)) /\
  get_irq both = IRQ_line both /\
  Z.testbit (get_irq both) k1 = true /\
  Z.testbit (get_irq both) k2 = true /\
  Z.testbit (get_irq (ack_irq both (IRQ_source k1))) k1 = false /\
  Z.testbit (get_irq (ack_irq both (IRQ_source k1))) k2 = true /\
  (get_irq (irq_run (set_IRQ_line b 0) h) = 0 <->
   forall k, is_source k -> outstanding h k = false).
Proof.
  intros H1 H2 Hne Hh both.
  assert (Hget : forall (c : Bus Cartridge PPU APU CPU) k, is_source k ->
            Z.testbit (get_irq c) k = Z.testbit (IRQ_line c) k).
  { intros c k Hk. unfold get_irq, is_source in *. rewrite u8_testbit by lia.
    replace (k <? 8) with true by lia. apply andb_true_r. }
  split; [apply get_irq_assert, IRQ_source_byte, H1|].
  split; [apply get_irq_ack|].
  subst both.
  split; [apply u8_small, u8_range|].
  rewrite !Hget, !ack_irq_testbit, !assert_irq_testbit by assumption.
  rewrite !Z.eqb_refl.
  replace (k1 =? k2) with false by lia.
  replace (k2 =? k1) with false by lia.
  split; [destruct (Z.testbit (IRQ_line b) k1); reflexivity|].
  split; [destruct (Z.testbit (IRQ_line b) k2); reflexivity|].
  split; [destruct (Z.testbit (IRQ_line b) k1); reflexivity|].
  split; [destruct (Z.testbit (IRQ_line b) k2); reflexivity|].
  rewrite get_irq_zero. split; intros H k Hk.
  - specialize (H k Hk). rewrite irq_run_testbit in H by assumption.
    cbn [IRQ_line set_IRQ_line] in H. rewrite Z.bits_0 in H. exact H.
  - rewrite irq_run_testbit by assumption.
    cbn [IRQ_line set_IRQ_line]. rewrite Z.bits_0. apply H, Hk.
Qed.
End Interrupts.

(** ** The audio ring buffer *)

Lemma list_inserts_overlay {A : Type} (l k : list A) (i : nat) :
  (i + length k <= length l)%nat ->
  list_inserts i k l = take i l ++ k ++ drop (i + length k) l.
Proof.
  intros H.
  rewrite <- (take_drop i l) at 1.
  replace i with (length (take i l) + 0)%nat at 1 by (rewrite length_take; lia).
  rewrite list_inserts_app_r. f_equal.
  rewrite <- (take_drop (length k) (drop i l)) at 1.
  rewrite list_inserts_0_r by (rewrite length_take, length_drop; lia).
  rewrite drop_drop. reflexivity.
Qed.

Lemma BUFFER_SIZE_pos : 0 < BUFFER_SIZE.
Proof. reflexivity. Qed.

(** The mask [BUFFER_SIZE - 1] wraps a cursor: the size is a power of two. *)
Lemma wrap_mask (v : Z) : Z.land v (BUFFER_SIZE - 1) = v mod BUFFER_SIZE.
Proof.
  change (BUFFER_SIZE - 1) with (Z.ones 13). rewrite Z.land_ones by lia.
  reflexivity.
Qed.

Lemma wrap_cursor (v : Z) :
  u16 (Z.land v (BUFFER_SIZE - 1)) = v mod BUFFER_SIZE.
Proof.
  rewrite wrap_mask. unfold u16. apply Z.mod_small.
  pose proof (Z.mod_pos_bound v BUFFER_SIZE BUFFER_SIZE_pos).
  change BUFFER_SIZE with 8192 in *. lia.
Qed.

Lemma wrap_once (v : Z) :
  0 <= v < 2 * BUFFER_SIZE ->
  v mod BUFFER_SIZE = if v <? BUFFER_SIZE then v else v - BUFFER_SIZE.
Proof.
  intros Hv. destruct (Z.ltb_spec v BUFFER_SIZE).
  - apply Z.mod_small. lia.
  - symmetry. apply (Z.mod_unique_pos v BUFFER_SIZE 1); lia.
Qed.

Global Opaque BUFFER_SIZE.

(** C5: when fewer samples are available than requested, the callback
    writes zero over the whole request, leaves the memory behind it alone
    and leaves the globals, [read_pos] among them, as they were. *)
Theorem underrun_is_silence (s : Audio) (output : list Z) (len : Z) :
  0 <= len ->
  available_data s < len / 2 ->
  (Z.to_nat (len / 2) <= length output)%nat ->
  take (Z.to_nat (len / 2)) (fst (audio_callback s output len)) =
    replicate (Z.to_nat (len / 2)) 0 /\
  drop (Z.to_nat (len / 2)) (fst (audio_callback s output len)) =
    drop (Z.to_nat (len / 2)) output /\
  length (fst (audio_callback s output len)) = length output /\
  snd (audio_callback s output len) = s /\
  read_pos (snd (audio_callback s output len)) = read_pos s.
Proof.
  intros Hlen Hav Hout. unfold audio_callback.
  replace (available_data s >=? len / 2) with false by lia.
  cbn [fst snd]. unfold std_fill. rewrite Z.sub_0_r.
  change (Z.to_nat 0) with 0%nat.
  set (n := Z.to_nat (len / 2)) in *.
  rewrite list_inserts_overlay by (rewrite length_replicate; lia).
  rewrite length_replicate, take_0. cbn [app Nat.add].
  split; [rewrite take_app_length' by (rewrite length_replicate; reflexivity);
          reflexivity|].
  split; [rewrite drop_app_length' by (rewrite length_replicate; reflexivity);
          reflexivity|].
  split; [|split; reflexivity].
  rewrite length_app, length_replicate, length_drop. lia.
Qed.

Lemma produce_snoc (s : Audio) (samples : list Z) (x : Z) :
  produce s (samples ++ [x]) = produce_sample (produce s samples) x.
Proof. unfold produce. apply foldl_snoc. Qed.

(** What the producer leaves behind: sample [i] sits [i] places after the
    old [write_pos], wrapped; the cursor has advanced by the number of
    samples, wrapped; [read_pos] has not moved. *)
Lemma produce_spec (samples : list Z) : forall s,
  audio_wf s ->
  Z.of_nat (length samples) < BUFFER_SIZE ->
  length (audio_buffer (produce s samples)) = length (audio_buffer s) /\
  write_pos (produce s samples) =
    (write_pos s + Z.of_nat (length samples)) mod BUFFER_SIZE /\
  read_pos (produce s samples) = read_pos s /\
  forall i : nat, (i < length samples)%nat ->
    audio_buffer (produce s samples)
      !! Z.to_nat ((write_pos s + Z.of_nat i) mod BUFFER_SIZE) = samples !! i.
Proof.
  induction samples as [|x samples IH] using rev_ind; intros s Hwf Hlen.
  - destruct Hwf as (_ & Hw & _). cbn. repeat split.
    + rewrite Z.add_0_r, Z.mod_small by lia. reflexivity.
    + intros i Hi. lia.
  - rewrite length_app in *. cbn [length] in *.
    destruct (IH s Hwf) as (Hl & Hw & Hr & Hget); [lia|].
    destruct Hwf as (Hsize & Hw0 & _).
    rewrite produce_snoc. unfold produce_sample. cbn [audio_buffer write_pos read_pos].
    split; [rewrite length_insert; exact Hl|].
    split.
    { rewrite wrap_cursor, Hw, Zplus_mod_idemp_l. f_equal. lia. }
    split; [exact Hr|].
    intros i Hi. rewrite Hw.
    assert (Hn : (write_pos s + Z.of_nat (length samples)) mod BUFFER_SIZE =
                 if write_pos s + Z.of_nat (length samples) <? BUFFER_SIZE
                 then write_pos s + Z.of_nat (length samples)
                 else write_pos s + Z.of_nat (length samples) - BUFFER_SIZE)
      by (apply wrap_once; lia).
    assert (Hi' : (write_pos s + Z.of_nat i) mod BUFFER_SIZE =
                 if write_pos s + Z.of_nat i <? BUFFER_SIZE
                 then write_pos s + Z.of_nat i
                 else write_pos s + Z.of_nat i - BUFFER_SIZE)
      by (apply wrap_once; lia).
    destruct (decide (i = length samples)) as [-> | Hne].
    + rewrite list_lookup_insert_eq, list_lookup_middle by
        (reflexivity ||
         (rewrite Hl, Hn;
          destruct (write_pos s + Z.of_nat (length samples) <? BUFFER_SIZE) eqn:E;
          lia)).
      reflexivity.
    + rewrite list_lookup_insert_ne.
      * rewrite lookup_app_l by lia. apply Hget. lia.
      * rewrite Hn, Hi'.
        destruct (write_pos s + Z.of_nat (length samples) <? BUFFER_SIZE) eqn:E1,
                 (write_pos s + Z.of_nat i <? BUFFER_SIZE) eqn:E2; lia.
Qed.

(** Starting from a drained buffer, the samples just produced are what lies
    between the cursors: one range, or the end of the buffer followed by
    its front when the range crosses the end. *)
Lemma produced_ranges (s : Audio) (samples : list Z) :
  audio_wf s ->
  read_pos s = write_pos s ->
  0 < Z.of_nat (length samples) < BUFFER_SIZE ->
  (if read_pos s + Z.of_nat (length samples) >? BUFFER_SIZE
   then drop (Z.to_nat (read_pos s)) (audio_buffer (produce s samples)) ++
        take (Z.to_nat (read_pos s + Z.of_nat (length samples) - BUFFER_SIZE))
          (audio_buffer (produce s samples))
   else take (length samples)
          (drop (Z.to_nat (read_pos s)) (audio_buffer (produce s samples)))) =
  samples.
Proof.
  intros Hwf Hrw Hn.
  destruct (produce_spec samples s Hwf) as (Hl & _ & _ & Hget); [lia|].
  destruct Hwf as (Hsize & Hw & Hr). rewrite <- Hrw in Hget.
  set (buf := audio_buffer (produce s samples)) in *.
  apply list_eq. intros i.
  rewrite Z.gtb_ltb.
  destruct (Z.ltb_spec BUFFER_SIZE (read_pos s + Z.of_nat (length samples))) as [Hx|Hx].
  - destruct (decide (i < Z.to_nat (BUFFER_SIZE - read_pos s))%nat) as [Hi|Hi].
    + rewrite lookup_app_l by (rewrite length_drop; lia).
      rewrite lookup_drop, <- Hget by lia. f_equal.
      rewrite Z.mod_small by lia. lia.
    + rewrite lookup_app_r by (rewrite length_drop; lia).
      rewrite length_drop.
      destruct (decide (i < length samples)%nat) as [Hin|Hin].
      * rewrite lookup_take_lt by lia. rewrite <- Hget by lia. f_equal.
        rewrite wrap_once by lia.
        destruct (Z.ltb_spec (read_pos s + Z.of_nat i) BUFFER_SIZE); lia.
      * rewrite lookup_take_ge by lia. symmetry. apply lookup_ge_None_2. lia.
  - destruct (decide (i < length samples)%nat) as [Hin|Hin].
    + rewrite lookup_take_lt, lookup_drop, <- Hget by lia. f_equal.
      rewrite Z.mod_small by lia. lia.
    + rewrite lookup_take_ge by lia. symmetry. apply lookup_ge_None_2. lia.
Qed.

Lemma produced_available (s : Audio) (samples : list Z) :
  audio_wf s ->
  read_pos s = write_pos s ->
  0 < Z.of_nat (length samples) < BUFFER_SIZE ->
  available_data (produce s samples) = Z.of_nat (length samples).
Proof.
  intros Hwf Hrw Hn.
  destruct (produce_spec samples s Hwf) as (_ & Hw & Hr & _); [lia|].
  destruct Hwf as (_ & Hw0 & _).
  unfold available_data. rewrite Hw, Hr, Hrw, wrap_once by lia.
  rewrite Z.geb_leb.
  destruct (Z.ltb_spec (write_pos s + Z.of_nat (length samples)) BUFFER_SIZE),
    (Z.leb_spec (write_pos s) (write_pos s + Z.of_nat (length samples)));
    try lia.
  destruct (Z.leb_spec (write_pos s)
              (write_pos s + Z.of_nat (length samples) - BUFFER_SIZE)); lia.
Qed.

(** C6: from a drained buffer (the cursors coincide), writing [N] samples
    at [write_pos], [0 < N < BUFFER_SIZE], and then asking the callback for
    [N] samples (that is [2 * N] bytes) gives back the written samples in
    order and leaves the memory behind them alone.  The samples read are one
    range of the buffer or, when the range crosses the end of the buffer,
    its end followed by its front.  [read_pos] has advanced by [N] modulo
    [BUFFER_SIZE], which drains the buffer again. *)
Theorem ring_buffer_round_trip (s : Audio) (samples output : list Z) :
  audio_wf s ->
  read_pos s = write_pos s ->
  0 < Z.of_nat (length samples) < BUFFER_SIZE ->
  (length samples <= length output)%nat ->
  let N := Z.of_nat (length samples) in
  let filled := produce s samples in
  let played := audio_callback filled output (2 * N) in
  take (length samples) (fst played) = samples /\
  drop (length samples) (fst played) = drop (length samples) output /\
  (if read_pos s + N >? BUFFER_SIZE
   then drop (Z.to_nat (read_pos s)) (audio_buffer filled) ++
        take (Z.to_nat (read_pos s + N - BUFFER_SIZE)) (audio_buffer filled)
   else take (length samples)
          (drop (Z.to_nat (read_pos s)) (audio_buffer filled))) = samples /\
  read_pos (snd played) = (read_pos s + N) mod BUFFER_SIZE /\
  read_pos (snd played) = write_pos (snd played).
Proof.
  intros Hwf Hrw Hn Hout N filled played.
  pose proof (produced_ranges s samples Hwf Hrw Hn) as Hranges.
  pose proof (produced_available s samples Hwf Hrw Hn) as Hav.
  destruct (produce_spec samples s Hwf) as (Hl & Hw & Hr & _); [lia|].
  destruct Hwf as (Hsize & Hw0 & Hr0).
  fold N filled in Hranges, Hav, Hl, Hw, Hr.
  assert (Hfst : fst played = samples ++ drop (length samples) output).
  { subst played. unfold audio_callback.
    replace (2 * N / 2) with N by (rewrite Z.mul_comm, Z.div_mul; lia).
    rewrite Hav. replace (N >=? N) with true by lia.
    cbn [fst]. rewrite Hr.
    transitivity (list_inserts 0 samples output);
      [|rewrite list_inserts_overlay by lia; rewrite take_0; reflexivity].
    rewrite <- Hranges at 1. clear Hranges. change (Z.to_nat 0) with 0%nat.
    destruct (read_pos s + N >? BUFFER_SIZE) eqn:Hx; unfold std_copy.
    - rewrite list_inserts_app_l, length_drop, Nat.add_0_r.
      rewrite Z.sub_0_r.
      replace (Z.to_nat (BUFFER_SIZE - read_pos s))
        with (length (audio_buffer filled) - Z.to_nat (read_pos s))%nat by lia.
      rewrite (take_ge (drop (Z.to_nat (read_pos s)) _))
        by (rewrite length_drop; lia).
      rewrite drop_0.
      replace (N - (BUFFER_SIZE - read_pos s))
        with (read_pos s + N - BUFFER_SIZE) by lia.
      reflexivity.
    - replace (read_pos s + N - read_pos s) with N by lia.
      subst N. rewrite Nat2Z.id. reflexivity. }
  split; [rewrite Hfst; apply take_app_length|].
  split; [rewrite Hfst; apply drop_app_length|].
  split; [exact Hranges|].
  assert (Hpos : read_pos (snd played) = (read_pos s + N) mod BUFFER_SIZE).
  { subst played. unfold audio_callback.
    replace (2 * N / 2) with N by (rewrite Z.mul_comm, Z.div_mul; lia).
    rewrite Hav. replace (N >=? N) with true by lia.
    cbn [snd set_read_pos read_pos]. rewrite wrap_cursor, Hr. reflexivity. }
  split; [exact Hpos|].
  rewrite Hpos. subst played. unfold audio_callback.
  replace (2 * N / 2) with N by (rewrite Z.mul_comm, Z.div_mul; lia).
  rewrite Hav. replace (N >=? N) with true by lia.
  cbn [snd set_read_pos write_pos]. rewrite Hw, Hrw. reflexivity.
Qed.

(** * Further properties of the bus *)

Section BusFurther.
Context {Cartridge PPU APU CPU : Type}.
Variable dev : Collaborators Cartridge PPU APU CPU.
Implicit Types b : Bus Cartridge PPU APU CPU.

(** ** Serial reads of any length, on both ports *)

(** With [strobe] low and no light gun, [n] reads of 0x4017 return the bits
    of port 2's register from bit 0 upwards. *)
Lemma shift_out_port2 (n : nat) : forall b,
  strobe b = false ->
  zapper_connected b = false ->
  byte_range (shift_register_controller2 b) ->
  fst (read_times dev n b 0x4017) =
    (fun i : nat => pad_bit (shift_register_controller2 b) (Z.of_nat i)) <$> seq 0 n.
Proof.
  induction n as [|n IH]; intros b Hs Hz Hr.
  - reflexivity.
  - cbn [read_times]. rewrite cpu_reads_4017_pad, Hs by exact Hz.
    set (b1 := set_shift_register_controller2 b _).
    specialize (IH b1 Hs Hz).
    destruct (read_times dev n b1 0x4017) as [rest c]. cbn [fst] in *.
    rewrite IH.
    + cbn [seq fmap list_fmap]. f_equal.
      * unfold pad_bit. rewrite bit0_testbit. reflexivity.
      * rewrite <- fmap_S_seq, <- list_fmap_compose.
        apply list_fmap_ext. intros _ i _. cbn.
        rewrite u8_small by (apply shiftr_byte; exact Hr).
        apply pad_bit_shiftr.
    + cbn. apply u8_range.
Qed.

Lemma update_controller_state_eq (controller_state : Z) b :
  update_controller_state dev controller_state b =
    mkBus (cart b) (ppu b) (apu b) (cpu b) false
      (Z.land controller_state 0xFF)
      (if zapper_connected b then shift_register_controller2 b
       else Z.land (Z.shiftr controller_state 8) 0xFF)
      (zapper_connected b) (zapper b) (NMI b) (IRQ_line b).
Proof.
  unfold update_controller_state. rewrite !cpu_writes_4016. reflexivity.
Qed.

Lemma pad_bit_high_byte (controller_state : Z) (i : nat) :
  (i < 8)%nat ->
  pad_bit (Z.land (Z.shiftr controller_state 8) 0xFF) (Z.of_nat i) =
  pad_bit controller_state (8 + Z.of_nat i).
Proof.
  intros Hi. rewrite pad_bit_low_byte by lia. unfold pad_bit.
  rewrite Z.shiftr_spec by lia. rewrite (Z.add_comm (Z.of_nat i) 8). reflexivity.
Qed.

Lemma pad_bit_exhausted (v : Z) (i : nat) :
  byte_range v -> (8 <= i)%nat -> pad_bit v (Z.of_nat i) = 0x40.
Proof.
  intros Hv Hi. unfold pad_bit. rewrite (byte_high v) by (exact Hv || lia).
  reflexivity.
Qed.

(** X1: after the strobe pulse of [update_controller_state], with no light
    gun, any number [n] of reads of port 1 returns the buttons 0, ..., 7 of
    the controller bitmask in that order and then 0x40 for the ninth and
    every later read; the same reads of port 2 return the buttons
    8, ..., 15 and then 0x40. *)
Theorem serial_reads_of_any_length (controller_state : Z) b (n : nat) :
  zapper_connected b = false ->
  fst (read_times dev n (update_controller_state dev controller_state b) 0x4016) =
    (fun i : nat => if (i <? 8)%nat then pad_bit controller_state (Z.of_nat i)
                    else 0x40) <$> seq 0 n /\
  fst (read_times dev n (update_controller_state dev controller_state b) 0x4017) =
    (fun i : nat => if (i <? 8)%nat then pad_bit controller_state (8 + Z.of_nat i)
                    else 0x40) <$> seq 0 n.
Proof.
  intros Hz. rewrite update_controller_state_eq, Hz. split.
  - rewrite shift_out; [|reflexivity|apply land_byte].
    apply list_fmap_ext. intros _ i _. cbn [shift_register_controller1].
    destruct (Nat.ltb_spec i 8).
    + apply pad_bit_low_byte. lia.
    + apply pad_bit_exhausted; [apply land_byte | assumption].
  - rewrite shift_out_port2; [|reflexivity|reflexivity|apply land_byte].
    apply list_fmap_ext. intros _ i _. cbn [shift_register_controller2].
    destruct (Nat.ltb_spec i 8).
    + apply pad_bit_high_byte. assumption.
    + apply pad_bit_exhausted; [apply land_byte | assumption].
Qed.

(** ** The two ports do not disturb each other *)

(** X2: a read of port 1 and a read of port 2 commute: in either order
    each port returns the same byte and the bus ends in the same state,
    with or without a light gun and whatever [strobe] is. *)
Theorem port_reads_commute b :
  fst (cpu_reads dev (snd (cpu_reads dev b 0x4017)) 0x4016) =
    fst (cpu_reads dev b 0x4016) /\
  fst (cpu_reads dev (snd (cpu_reads dev b 0x4016)) 0x4017) =
    fst (cpu_reads dev b 0x4017) /\
  snd (cpu_reads dev (snd (cpu_reads dev b 0x4016)) 0x4017) =
    snd (cpu_reads dev (snd (cpu_reads dev b 0x4017)) 0x4016).
Proof.
  rewrite !cpu_reads_decode. unfold controller_port_read.
  destruct b as [c p a u s r1 r2 z g m l]. cbn.
  destruct s, z; cbn; repeat split.
Qed.

(** X3: a read of a controller port never pulls the trigger and never
    moves the gun: the coordinates and [trigger] keep their values, and so
    do [strobe], [zapper_connected], the pending NMI, the interrupt mask
    and the collaborators.  [light_sensed] changes only on a read of 0x4017
    with the light gun connected. *)
Theorem port_reads_leave_the_gun b (a : Z) :
  is_controller_port a = true ->
  let b' := snd (cpu_reads dev b a) in
  Zapper.trigger (zapper b') = Zapper.trigger (zapper b) /\
  Zapper.x (zapper b') = Zapper.x (zapper b) /\
  Zapper.y (zapper b') = Zapper.y (zapper b) /\
  Zapper.light_sensed (zapper b') =
    Zapper.light_sensed (zapper b) || (zapper_connected b && (a =? 0x4017)) /\
  strobe b' = strobe b /\ zapper_connected b' = zapper_connected b /\
  NMI b' = NMI b /\ IRQ_line b' = IRQ_line b /\
  cart b' = cart b /\ ppu b' = ppu b /\ apu b' = apu b /\ cpu b' = cpu b.
Proof.
  intros Ha b'. subst b'. rewrite cpu_reads_decode.
  assert (Hp : in_PPU_range a = false).
  { unfold is_controller_port, in_PPU_range in *.
    destruct (Z.eqb_spec a 0x4016), (Z.eqb_spec a 0x4017); subst;
      try reflexivity; discriminate. }
  rewrite Hp, Ha. unfold controller_port_read.
  unfold is_controller_port in Ha.
  destruct b as [c p ap u s r1 r2 z g m l]. destruct g as [gx gy gt gl]. cbn.
  destruct (Z.eqb_spec a 0x4016) as [E16 | H16].
  - rewrite E16. cbn. rewrite andb_false_r, orb_false_r.
    destruct s; cbn; repeat split.
  - cbn in Ha. rewrite Ha. destruct z, s; cbn;
      rewrite ?orb_false_r, ?orb_true_r; repeat split.
Qed.

(** ** The strobe pulse *)

Lemma pulse_forgets_port1 (controller_state : Z) b (v : Z) :
  update_controller_state dev controller_state
    (set_shift_register_controller1 b v) =
  update_controller_state dev controller_state b.
Proof. rewrite !update_controller_state_eq. reflexivity. Qed.

Lemma reads_of_port1_touch_port1 (n : nat) : forall b,
  snd (read_times dev n b 0x4016) = b \/
  exists v, snd (read_times dev n b 0x4016) = set_shift_register_controller1 b v.
Proof.
  induction n as [|n IH]; intros b.
  - left. reflexivity.
  - cbn [read_times]. rewrite cpu_reads_4016.
    destruct (strobe b).
    + specialize (IH b). destruct (read_times dev n b 0x4016) as [rest c].
      exact IH.
    + set (b1 := set_shift_register_controller1 b _).
      specialize (IH b1). destruct (read_times dev n b1 0x4016) as [rest c].
      cbn [snd] in *. right. destruct IH as [-> | [v ->]]; eauto.
Qed.

(** X4: the strobe pulse leaves [strobe] low, port 1's register holding the
    low byte of the controller bitmask and, unless a light gun is
    connected, port 2's holding the high byte, whatever the registers and
    [strobe] were.  It is idempotent, and it discards a serial read in
    progress: after any number of reads of port 1 the pulse gives the same
    bus as without them. *)
Theorem pulse_restarts_the_serial_read (controller_state : Z) b (n : nat) :
  update_controller_state dev controller_state b =
    mkBus (cart b) (ppu b) (apu b) (cpu b) false
      (Z.land controller_state 0xFF)
      (if zapper_connected b then shift_register_controller2 b
       else Z.land (Z.shiftr controller_state 8) 0xFF)
      (zapper_connected b) (zapper b) (NMI b) (IRQ_line b) /\
  update_controller_state dev controller_state
    (update_controller_state dev controller_state b) =
    update_controller_state dev controller_state b /\
  update_controller_state dev controller_state
    (snd (read_times dev n b 0x4016)) =
    update_controller_state dev controller_state b.
Proof.
  split; [apply update_controller_state_eq|]. split.
  - rewrite !update_controller_state_eq. cbn.
    destruct (zapper_connected b); reflexivity.
  - destruct (reads_of_port1_touch_port1 n b) as [-> | [v ->]].
    + reflexivity.
    + apply pulse_forgets_port1.
Qed.

(** ** Bytes *)

(** X5: [cpu_reads] returns a byte at every address, whatever the
    collaborators return; at the two controller ports bit 6 of that byte is
    set. *)
Theorem cpu_reads_returns_a_byte b (a : Z) :
  0 <= fst (cpu_reads dev b a) < 256 /\
  (if is_controller_port a then Z.testbit (fst (cpu_reads dev b a)) 6 else true)
    = true.
Proof.
  rewrite cpu_reads_decode. unfold returned, controller_port_read.
  destruct (in_PPU_range a) eqn:Hp.
  { unfold in_PPU_range, is_controller_port in *. cbn [fst].
    split; [apply u8_range|].
    destruct (Z.eqb_spec a 0x4016), (Z.eqb_spec a 0x4017); subst;
      try reflexivity; discriminate. }
  assert (Hport : forall v, 0 <= Z.lor (Z.land v 1) 0x40 < 256 /\
                            Z.testbit (Z.lor (Z.land v 1) 0x40) 6 = true).
  { intros v. destruct (bit0_cases v) as [-> | ->];
      [change (Z.lor 0 0x40) with 64 | change (Z.lor 1 0x40) with 65];
      (split; [lia | reflexivity]). }
  assert (Hgun : forall v, Z.testbit (u8 (Z.lor (u8 v) 0x40)) 6 = true).
  { intros v. rewrite u8_testbit, Z.lor_spec by lia.
    change (Z.testbit 0x40 6) with true. rewrite orb_true_r. reflexivity. }
  destruct (is_controller_port a).
  - destruct (a =? 0x4016); [apply Hport|].
    destruct (zapper_connected b); cbn [fst];
      [split; [apply u8_range | apply Hgun] | apply Hport].
  - destruct (in_APU_range a), (in_Cartridge_range a); cbn [fst];
      (split; [apply u8_range || lia | reflexivity]).
Qed.


(** ** Aiming the light gun *)

Lemma aim_register (s : Z) :
  u8 (Z.lor (u8 (Z.land s 0xE6)) (Z.shiftl 1 4)) = Z.lor (Z.land s 0xE6) 0x10.
Proof.
  change (Z.shiftl 1 4) with 0x10. bitwise. bit_index i.
  9: rewrite (byte_high 0xE6), (byte_high 0x10) by lia.
  all: bit_cases; cbn; rewrite ?andb_false_r; reflexivity.
Qed.

Lemma aim_line (s : Z) :
  u8 (Z.lor (u8 (Z.lor (Z.land s 0xE6) 0x10)) 0x40) = Z.lor (Z.land s 0xE6) 0x50.
Proof.
  bitwise. bit_index i.
  9: rewrite (byte_high 0xE6), (byte_high 0x50) by lia.
  all: bit_cases; cbn; rewrite ?andb_false_r; reflexivity.
Qed.

Lemma update_zapper_coordinates_eq b (x y : Z) :
  update_zapper_coordinates b x y =
    mkBus (cart b) (ppu b) (apu b) (cpu b) (strobe b)
      (shift_register_controller1 b)
      (Z.lor (Z.land (shift_register_controller2 b) 0xE6) 0x10)
      (zapper_connected b)
      (Zapper.mk x y true (Zapper.light_sensed (zapper b)))
      (NMI b) (IRQ_line b).
Proof.
  destruct b as [c p ap u s r1 r2 z g m l]. destruct g as [gx gy gt gl].
  unfold update_zapper_coordinates. cbn. rewrite aim_register. reflexivity.
Qed.

(** X7: [update_zapper_coordinates(x, y)] stores the coordinates, pulls the
    trigger and leaves [light_sensed] alone; in the port-2 register it sets
    bit 4 and clears bits 0 and 3, so a sensor reading written earlier by
    [set_light_sensed] is lost, and it keeps the other bits.  With the
    light gun connected, a strobe pulse does not change that register, and
    the next read of 0x4017 returns it with bit 6 set. *)
Theorem aim_pulls_the_trigger_line b (x y controller_state : Z) :
  zapper_connected b = true ->
  let aimed := update_zapper_coordinates b x y in
  zapper aimed = Zapper.mk x y true (Zapper.light_sensed (zapper b)) /\
  shift_register_controller2 aimed =
    Z.lor (Z.land (shift_register_controller2 b) 0xE6) 0x10 /\
  Z.testbit (shift_register_controller2 aimed) 4 = true /\
  Z.testbit (shift_register_controller2 aimed) 3 = false /\
  Z.testbit (shift_register_controller2 aimed) 0 = false /\
  shift_register_controller2 (update_controller_state dev controller_state aimed) =
    shift_register_controller2 aimed /\
  fst (cpu_reads dev (update_controller_state dev controller_state aimed) 0x4017) =
    Z.lor (Z.land (shift_register_controller2 b) 0xE6) 0x50.
Proof.
  intros Hz aimed. subst aimed.
  rewrite update_controller_state_eq, update_zapper_coordinates_eq.
  cbn [zapper shift_register_controller2 zapper_connected]. rewrite Hz.
  split; [reflexivity|]. split; [reflexivity|].
  generalize (shift_register_controller2 b). intros s.
  split; [rewrite Z.lor_spec, Z.land_spec; bit_cases; reflexivity|].
  split; [rewrite Z.lor_spec, Z.land_spec; bit_cases; reflexivity|].
  split; [rewrite Z.lor_spec, Z.land_spec; bit_cases; reflexivity|].
  split; [reflexivity|].
  unfold cpu_reads. cbn. apply aim_line.
Qed.

(** ** The light sensor *)

Lemma sensor_twice (s : Z) (h1 h2 : bool) :
  u8 (Z.lor (Z.land (u8 (Z.lor (Z.land s (Z.lnot (Z.shiftl 1 3)))
                               (Z.shiftl (bool_to_int h1) 3)))
                    (Z.lnot (Z.shiftl 1 3)))
            (Z.shiftl (bool_to_int h2) 3)) =
  u8 (Z.lor (Z.land s (Z.lnot (Z.shiftl 1 3))) (Z.shiftl (bool_to_int h2) 3)).
Proof.
  apply Z.bits_inj'. intros i Hi. rewrite !sensor_bit by lia.
  destruct (Z.eqb_spec i 3) as [E | E]; [reflexivity|].
  rewrite (u8_testbit (u8 _)), sensor_bit, u8_testbit by lia.
  replace (i =? 3) with false by lia.
  destruct (Z.testbit s i), (i <? 8); reflexivity.
Qed.

Lemma cpu_reads_4017_gun b :
  zapper_connected b = true ->
  cpu_reads dev b 0x4017 =
    (u8 (Z.lor (u8 (shift_register_controller2 b)) 0x40),
     set_zapper_state b (Zapper.with_light_sensed (zapper b) true)).
Proof. intros Hz. unfold cpu_reads. simpl. rewrite Hz. reflexivity. Qed.

(** X8: with the light gun connected, the byte read at 0x4017 after
    [set_light_sensed(hit)] carries [!hit] in bit 3 and has bit 6 set.  The
    read sets [light_sensed] to true but leaves bit 3 of the register at
    [!hit], so after a hit the member and the register disagree until the
    next [set_light_sensed].  Of two successive [set_light_sensed] calls
    only the second counts. *)
Theorem sensor_bit_reaches_the_port b (earlier hit : bool) :
  zapper_connected b = true ->
  let r := cpu_reads dev (set_light_sensed b hit) 0x4017 in
  Z.testbit (fst r) 3 = negb hit /\
  Z.testbit (fst r) 6 = true /\
  Zapper.light_sensed (zapper (snd r)) = true /\
  Z.testbit (shift_register_controller2 (snd r)) 3 = negb hit /\
  set_light_sensed (set_light_sensed b earlier) hit = set_light_sensed b hit.
Proof.
  intros Hz r. subst r.
  rewrite cpu_reads_4017_gun by exact Hz. cbn [fst snd].
  change (shift_register_controller2
            (set_zapper_state (set_light_sensed b hit)
               (Zapper.with_light_sensed (zapper (set_light_sensed b hit)) true)))
    with (shift_register_controller2 (set_light_sensed b hit)).
  change (shift_register_controller2 (set_light_sensed b hit)) with
    (u8 (Z.lor (Z.land (shift_register_controller2 b) (Z.lnot (Z.shiftl 1 3)))
               (Z.shiftl (bool_to_int (negb hit)) 3))).
  split.
  { rewrite u8_testbit, Z.lor_spec, u8_testbit, sensor_bit by lia.
    destruct hit; reflexivity. }
  split.
  { rewrite u8_testbit, Z.lor_spec by lia.
    change (Z.testbit 0x40 6) with true. rewrite orb_true_r. reflexivity. }
  split; [reflexivity|].
  split; [rewrite sensor_bit by lia; reflexivity|].
  destruct b as [c p ap u s r1 r2 z g m l]. destruct g as [gx gy gt gl].
  unfold set_light_sensed, set_zapper_state, set_shift_register_controller2,
    Zapper.with_light_sensed.
  cbn -[u8 Z.lor Z.land Z.lnot Z.shiftl bool_to_int].
  f_equal. apply sensor_twice.
Qed.

(** ** After a soft reset *)

Lemma cleared_port_read (a : Z) : forall b,
  is_controller_port a = true ->
  shift_register_controller1 b = 0 ->
  shift_register_controller2 b = 0 ->
  fst (cpu_reads dev b a) = 0x40 /\
  shift_register_controller1 (snd (cpu_reads dev b a)) = 0 /\
  shift_register_controller2 (snd (cpu_reads dev b a)) = 0.
Proof.
  intros b Ha H1 H2. rewrite cpu_reads_decode.
  assert (Hp : in_PPU_range a = false).
  { unfold is_controller_port, in_PPU_range in *.
    destruct (Z.eqb_spec a 0x4016), (Z.eqb_spec a 0x4017); subst;
      try reflexivity; discriminate. }
  rewrite Hp, Ha. unfold controller_port_read. rewrite H1, H2.
  destruct (a =? 0x4016), (zapper_connected b), (strobe b); cbn; auto.
Qed.

(** X9: after [soft_reset], any number of reads of a controller port
    return 0x40, that is no button, whatever [strobe] is and whether or not
    a light gun is connected, until the next write to 0x4016 or light-gun
    command. *)
Theorem reads_after_soft_reset b (a : Z) (n : nat) :
  is_controller_port a = true ->
  fst (read_times dev n (soft_reset b) a) = replicate n 0x40.
Proof.
  intros Ha.
  assert (H : forall c : Bus Cartridge PPU APU CPU,
             shift_register_controller1 c = 0 ->
             shift_register_controller2 c = 0 ->
             fst (read_times dev n c a) = replicate n 0x40).
  { induction n as [|n IH]; intros c H1 H2; [reflexivity|].
    cbn [read_times replicate].
    destruct (cleared_port_read a c Ha H1 H2) as (Hd & H1' & H2').
    destruct (cpu_reads dev c a) as [d c']. cbn [fst snd] in *.
    specialize (IH c' H1' H2').
    destruct (read_times dev n c' a) as [rest c'']. cbn [fst] in *.
    rewrite Hd, IH. reflexivity. }
  apply H; reflexivity.
Qed.
End BusFurther.

(** ** The interrupt mask is a set of sources *)

Section InterruptAlgebra.
Context {Cartridge PPU APU CPU : Type}.
Implicit Types b : Bus Cartridge PPU APU CPU.

Ltac irq_line_eq :=
  unfold assert_irq, ack_irq, set_IRQ_line;
  cbn -[u8 Z.lor Z.land Z.lnot IRQ_source];
  f_equal;
  match goal with |- context [IRQ_line ?b] => generalize (IRQ_line b); intros ?l end;
  apply Z.bits_inj'; intros ?i ?Hi;
  repeat first
    [ rewrite u8_testbit by lia | rewrite Z.lor_spec | rewrite Z.land_spec
    | rewrite Z.lnot_spec by lia | rewrite IRQ_source_testbit by lia ].

(** X10: the interrupt calls do not count.  Asserting a mask twice is
    asserting it once, and one acknowledgement cancels any number of
    assertions; acknowledging twice is acknowledging once; an assertion
    after an acknowledgement wins.  Assertions commute with each other, and
    so do acknowledgements; the assertion of one source commutes with the
    acknowledgement of another. *)
Theorem irq_calls_do_not_count b (m m' k1 k2 : Z) :
  is_source k1 -> is_source k2 -> k1 <> k2 ->
  assert_irq (assert_irq b m) m = assert_irq b m /\
  ack_irq (assert_irq (assert_irq b m) m) m = ack_irq b m /\
  ack_irq (ack_irq b m) m = ack_irq b m /\
  assert_irq (ack_irq b m) m = assert_irq b m /\
  assert_irq (assert_irq b m) m' = assert_irq (assert_irq b m') m /\
  ack_irq (ack_irq b m) m' = ack_irq (ack_irq b m') m /\
  ack_irq (assert_irq b (IRQ_source k1)) (IRQ_source k2) =
    assert_irq (ack_irq b (IRQ_source k2)) (IRQ_source k1).
Proof.
  intros H1 H2 Hne. unfold is_source in *.
  split; [irq_line_eq; destruct (Z.testbit l i), (Z.testbit m i), (i <? 8);
          reflexivity|].
  split; [irq_line_eq; destruct (Z.testbit l i), (Z.testbit m i), (i <? 8);
          reflexivity|].
  split; [irq_line_eq; destruct (Z.testbit l i), (Z.testbit m i), (i <? 8);
          reflexivity|].
  split; [irq_line_eq; destruct (Z.testbit l i), (Z.testbit m i), (i <? 8);
          reflexivity|].
  split; [irq_line_eq;
          destruct (Z.testbit l i), (Z.testbit m i), (Z.testbit m' i), (i <? 8);
          reflexivity|].
  split; [irq_line_eq;
          destruct (Z.testbit l i), (Z.testbit m i), (Z.testbit m' i), (i <? 8);
          reflexivity|].
  irq_line_eq.
  destruct (Z.eqb_spec k1 i), (Z.eqb_spec k2 i); try lia;
    destruct (Z.testbit l i), (i <? 8); reflexivity.
Qed.
End InterruptAlgebra.

(** ** The pattern-table path *)

(** X11: [ppu_reads] returns a byte at every address; from 0x2000 upwards
    it returns 0x00 and the cartridge is not called, while [ppu_writes]
    forwards every address, those from 0x2000 upwards included, to the
    cartridge. *)
Theorem pattern_table_reads_are_bounded {Cartridge PPU APU CPU : Type}
    (chr : ChrCollaborators Cartridge PPU APU CPU)
    (b : Bus Cartridge PPU APU CPU) (rb : RecBus) (a value : Z) :
  0x2000 <= a ->
  ppu_reads chr b a = (0x00, b) /\
  ppu_writes chr b a value = Cartridge_ppu_writes chr a value b /\
  cart (snd (ppu_reads chr_recorder rb a)) = cart rb /\
  cart (ppu_writes chr_recorder rb a value) = cart rb ++ [Write a value] /\
  (forall a', 0 <= fst (ppu_reads chr b a') < 256).
Proof.
  intros Ha.
  assert (Hr : forall (C P A U : Type) (c : ChrCollaborators C P A U)
                      (d : Bus C P A U), ppu_reads c d a = (0x00, d)).
  { intros C P A U c d. unfold ppu_reads.
    replace (a <? 0x2000) with false by lia. rewrite andb_false_r. reflexivity. }
  split; [apply Hr|]. split; [reflexivity|].
  split; [rewrite Hr; reflexivity|]. split; [reflexivity|].
  intros a'. unfold ppu_reads, returned.
  destruct ((a' >=? 0x0000) && (a' <? 0x2000)); cbn [fst];
    [apply u8_range | lia].
Qed.

(** * Further properties of the audio ring buffer *)

Lemma available_data_mod (s : Audio) :
  audio_wf s ->
  available_data s = (write_pos s - read_pos s) mod BUFFER_SIZE.
Proof.
  intros (_ & Hw & Hr). unfold available_data. rewrite Z.geb_leb.
  destruct (Z.leb_spec (read_pos s) (write_pos s)).
  - symmetry. apply Z.mod_small. lia.
  - apply (Z.mod_unique_pos _ _ (-1)); lia.
Qed.

Lemma ring_chunk_length (s : Audio) (n : Z) :
  audio_wf s -> 0 <= n <= BUFFER_SIZE ->
  length (ring_chunk s n) = Z.to_nat n.
Proof.
  intros (Hsize & _ & Hr) Hn. unfold ring_chunk. rewrite Z.gtb_ltb.
  destruct (Z.ltb_spec BUFFER_SIZE (read_pos s + n)).
  - rewrite length_app, length_drop, length_take. lia.
  - rewrite length_take, length_drop. lia.
Qed.

Lemma ring_chunk_lookup (s : Audio) (n : Z) (i : nat) :
  audio_wf s -> 0 <= n <= BUFFER_SIZE -> (i < Z.to_nat n)%nat ->
  ring_chunk s n !! i = ring_sample s i.
Proof.
  intros (Hsize & _ & Hr) Hn Hi. unfold ring_chunk, ring_sample.
  rewrite Z.gtb_ltb.
  destruct (Z.ltb_spec BUFFER_SIZE (read_pos s + n)).
  - destruct (decide (i < Z.to_nat (BUFFER_SIZE - read_pos s))%nat).
    + rewrite lookup_app_l by (rewrite length_drop; lia).
      rewrite lookup_drop. f_equal. rewrite Z.mod_small by lia. lia.
    + rewrite lookup_app_r by (rewrite length_drop; lia).
      rewrite length_drop, lookup_take_lt by lia. f_equal.
      rewrite wrap_once by lia.
      destruct (Z.ltb_spec (read_pos s + Z.of_nat i) BUFFER_SIZE); lia.
  - rewrite lookup_take_lt, lookup_drop by lia. f_equal.
    rewrite Z.mod_small by lia. lia.
Qed.

Lemma audio_wf_set_read_pos (s : Audio) (v : Z) :
  audio_wf s -> audio_wf (set_read_pos s (v mod BUFFER_SIZE)).
Proof.
  intros (Hsize & Hw & _).
  split; [exact Hsize|]. split; [exact Hw|].
  apply Z.mod_pos_bound, BUFFER_SIZE_pos.
Qed.

(** A request that can be served copies the chunk over the start of the
    output and advances [read_pos]. *)
Lemma callback_served (s : Audio) (output : list Z) (len : Z) :
  audio_wf s ->
  0 <= len / 2 <= available_data s ->
  audio_callback s output len =
    (list_inserts 0 (ring_chunk s (len / 2)) output,
     set_read_pos s ((read_pos s + len / 2) mod BUFFER_SIZE)).
Proof.
  intros (Hsize & Hw & Hr) Hn. unfold audio_callback, ring_chunk.
  replace (available_data s >=? len / 2) with true by lia.
  rewrite wrap_cursor. f_equal.
  change (Z.to_nat 0) with 0%nat.
  destruct (read_pos s + len / 2 >? BUFFER_SIZE) eqn:Hx; unfold std_copy.
  - rewrite list_inserts_app_l, length_drop, Nat.add_0_r, Z.sub_0_r.
    change (Z.to_nat 0) with 0%nat.
    replace (Z.to_nat (BUFFER_SIZE - read_pos s))
      with (length (audio_buffer s) - Z.to_nat (read_pos s))%nat by lia.
    rewrite (take_ge (drop (Z.to_nat (read_pos s)) _))
      by (rewrite length_drop; lia).
    rewrite drop_0.
    replace (len / 2 - (BUFFER_SIZE - read_pos s))
      with (read_pos s + len / 2 - BUFFER_SIZE) by lia.
    reflexivity.
  - change (Z.to_nat 0) with 0%nat.
    replace (read_pos s + len / 2 - read_pos s) with (len / 2) by lia.
    reflexivity.
Qed.

Lemma available_data_is_bounded_aux (s : Audio) :
  audio_wf s ->
  available_data s = (write_pos s - read_pos s) mod BUFFER_SIZE /\
  0 <= available_data s <= BUFFER_SIZE - 1.
Proof.
  intros Hwf. pose proof (available_data_mod s Hwf) as Hmod.
  pose proof (Z.mod_pos_bound (write_pos s - read_pos s) BUFFER_SIZE
                BUFFER_SIZE_pos).
  split; [exact Hmod | lia].
Qed.

(** X12: with both cursors inside the buffer, [available_data] is the
    distance from [read_pos] to [write_pos] modulo [BUFFER_SIZE]; it lies
    between 0 and [BUFFER_SIZE - 1] and is 0 exactly when the cursors
    coincide, so a buffer filled to the brim counts as empty.  A request
    for [BUFFER_SIZE] samples or more is therefore never served: the
    callback fills it with silence and moves nothing. *)
Theorem available_data_is_bounded (s : Audio) (output : list Z) (len : Z) :
  audio_wf s ->
  BUFFER_SIZE <= len / 2 ->
  available_data s = (write_pos s - read_pos s) mod BUFFER_SIZE /\
  0 <= available_data s <= BUFFER_SIZE - 1 /\
  (available_data s = 0 <-> read_pos s = write_pos s) /\
  audio_callback s output len = (std_fill output 0 (len / 2) 0, s).
Proof.
  intros Hwf Hlen. pose proof (available_data_mod s Hwf) as Hmod.
  pose proof (Z.mod_pos_bound (write_pos s - read_pos s) BUFFER_SIZE
                BUFFER_SIZE_pos) as Hb.
  split; [exact Hmod|]. split; [lia|]. split.
  - destruct Hwf as (_ & Hw & Hr). unfold available_data.
    rewrite Z.geb_leb.
    destruct (Z.leb_spec (read_pos s) (write_pos s)); lia.
  - unfold audio_callback.
    replace (available_data s >=? len / 2) with false by lia. reflexivity.
Qed.

Lemma available_after_read (s : Audio) (n : Z) :
  audio_wf s ->
  0 <= n <= available_data s ->
  available_data (set_read_pos s ((read_pos s + n) mod BUFFER_SIZE)) =
  available_data s - n.
Proof.
  intros Hwf Hn.
  destruct (available_data_is_bounded_aux s Hwf) as (Hmod & Hb).
  rewrite (available_data_mod _ (audio_wf_set_read_pos s _ Hwf)).
  cbn [write_pos read_pos set_read_pos].
  rewrite Zminus_mod_idemp_r.
  replace (write_pos s - (read_pos s + n))
    with (write_pos s - read_pos s - n) by lia.
  rewrite <- Zminus_mod_idemp_l, <- Hmod. apply Z.mod_small. lia.
Qed.

(** X13: a request the buffer can serve ([len / 2] samples, not more than
    [available_data]) writes, for every [i] below [len / 2], the sample at
    index [(read_pos + i) mod BUFFER_SIZE] of the buffer to place [i] of the
    output and leaves the rest of the output alone; [read_pos] advances by
    [len / 2] modulo [BUFFER_SIZE] and [available_data] drops by [len / 2]. *)
Theorem served_request_reads_the_ring (s : Audio) (output : list Z) (len : Z) :
  audio_wf s ->
  0 <= len ->
  len / 2 <= available_data s ->
  (Z.to_nat (len / 2) <= length output)%nat ->
  let played := audio_callback s output len in
  (forall i : nat, (i < Z.to_nat (len / 2))%nat ->
     fst played !! i = ring_sample s i) /\
  drop (Z.to_nat (len / 2)) (fst played) = drop (Z.to_nat (len / 2)) output /\
  length (fst played) = length output /\
  read_pos (snd played) = (read_pos s + len / 2) mod BUFFER_SIZE /\
  available_data (snd played) = available_data s - len / 2.
Proof.
  intros Hwf Hlen Hav Hout played. subst played.
  assert (Hn : 0 <= len / 2) by (apply Z.div_pos; lia).
  destruct (available_data_is_bounded_aux s Hwf) as (Hmod & Hb).
  rewrite callback_served by (exact Hwf || lia). cbn [fst snd].
  assert (Hlen' : length (ring_chunk s (len / 2)) = Z.to_nat (len / 2))
    by (apply ring_chunk_length; [exact Hwf | lia]).
  rewrite list_inserts_overlay by lia.
  rewrite take_0, Hlen'. cbn [app Nat.add].
  split.
  { intros i Hi. rewrite lookup_app_l by lia.
    apply ring_chunk_lookup; [exact Hwf | lia | exact Hi]. }
  split; [apply drop_app_length'; symmetry; exact Hlen'|].
  split; [rewrite length_app, length_drop; lia|].
  split; [reflexivity|].
  apply available_after_read; [exact Hwf | lia].
Qed.

(** X14: whatever it is asked for, the callback writes neither the buffer
    nor [write_pos], which belong to the producer; it keeps [read_pos]
    inside the buffer and does not change the size of the output memory. *)
Theorem callback_only_moves_read_pos (s : Audio) (output : list Z) (len : Z) :
  audio_wf s ->
  audio_wf (snd (audio_callback s output len)) /\
  audio_buffer (snd (audio_callback s output len)) = audio_buffer s /\
  write_pos (snd (audio_callback s output len)) = write_pos s /\
  length (fst (audio_callback s output len)) = length output.
Proof.
  intros Hwf. unfold audio_callback.
  destruct (available_data s >=? len / 2); cbn [fst snd].
  - rewrite wrap_cursor.
    split; [apply audio_wf_set_read_pos, Hwf|].
    split; [reflexivity|]. split; [reflexivity|].
    destruct (read_pos s + len / 2 >? BUFFER_SIZE); unfold std_copy;
      rewrite !length_inserts; reflexivity.
  - split; [exact Hwf|]. split; [reflexivity|]. split; [reflexivity|].
    unfold std_fill. apply length_inserts.
Qed.

Lemma ring_chunk_app (s : Audio) (n1 n2 : Z) :
  audio_wf s ->
  0 <= n1 -> 0 <= n2 -> n1 + n2 <= BUFFER_SIZE ->
  ring_chunk s (n1 + n2) =
  ring_chunk s n1 ++
  ring_chunk (set_read_pos s ((read_pos s + n1) mod BUFFER_SIZE)) n2.
Proof.
  intros Hwf H1 H2 H12.
  pose proof (audio_wf_set_read_pos s (read_pos s + n1) Hwf) as Hwf1.
  assert (L : length (ring_chunk s (n1 + n2)) = Z.to_nat (n1 + n2))
    by (apply ring_chunk_length; [exact Hwf | lia]).
  assert (L1 : length (ring_chunk s n1) = Z.to_nat n1)
    by (apply ring_chunk_length; [exact Hwf | lia]).
  assert (L2 : length (ring_chunk (set_read_pos s ((read_pos s + n1) mod BUFFER_SIZE)) n2)
               = Z.to_nat n2)
    by (apply ring_chunk_length; [exact Hwf1 | lia]).
  apply list_eq. intros i.
  destruct (decide (i < Z.to_nat (n1 + n2))%nat) as [Hi|Hi].
  - rewrite ring_chunk_lookup by (exact Hwf || lia).
    destruct (decide (i < Z.to_nat n1)%nat) as [Hi1|Hi1].
    + rewrite lookup_app_l by lia.
      rewrite ring_chunk_lookup by (exact Hwf || lia). reflexivity.
    + rewrite lookup_app_r by lia. rewrite L1.
      rewrite ring_chunk_lookup by (exact Hwf1 || lia).
      unfold ring_sample. cbn [audio_buffer read_pos set_read_pos].
      rewrite Zplus_mod_idemp_l. do 3 f_equal. lia.
  - rewrite !lookup_ge_None_2; [reflexivity | |]; rewrite ?length_app; lia.
Qed.

Lemma list_inserts_whole {A : Type} (k l : list A) :
  length k = length l -> list_inserts 0 k l = k.
Proof.
  intros H. rewrite list_inserts_overlay by lia.
  rewrite take_0, drop_ge by lia. apply app_nil_r.
Qed.

(** X15: two requests in a row deliver what one request for their total
    delivers.  When the buffer holds [n1 + n2] samples, asking for [n1]
    samples and then for [n2] gives outputs whose concatenation is the
    output of one request for [n1 + n2] samples, and leaves the same
    cursors. *)
Theorem two_requests_compose (s : Audio) (out1 out2 : list Z) (n1 n2 : Z) :
  audio_wf s ->
  0 <= n1 ->
  0 <= n2 ->
  n1 + n2 <= available_data s ->
  length out1 = Z.to_nat n1 ->
  length out2 = Z.to_nat n2 ->
  let first := audio_callback s out1 (2 * n1) in
  let second := audio_callback (snd first) out2 (2 * n2) in
  audio_callback s (out1 ++ out2) (2 * (n1 + n2)) =
    (fst first ++ fst second, snd second).
Proof.
  intros Hwf H1 H2 H12 L1 L2 first second. subst first second.
  destruct (available_data_is_bounded_aux s Hwf) as (_ & Hb).
  pose proof (audio_wf_set_read_pos s (read_pos s + n1) Hwf) as Hwf1.
  assert (D : forall n, 2 * n / 2 = n)
    by (intros n; rewrite Z.mul_comm; apply Z.div_mul; lia).
  rewrite (callback_served s out1) by (rewrite ?D; exact Hwf || lia).
  cbn [fst snd]. rewrite D.
  rewrite (callback_served _ out2)
    by (rewrite ?D, ?available_after_read; exact Hwf1 || exact Hwf || lia).
  rewrite (callback_served s (out1 ++ out2)) by (rewrite ?D; exact Hwf || lia).
  cbn [fst snd]. rewrite !D.
  rewrite !list_inserts_whole.
  - f_equal.
    + apply ring_chunk_app; (exact Hwf || lia).
    + unfold set_read_pos. cbn [audio_buffer write_pos read_pos]. f_equal.
      rewrite Zplus_mod_idemp_l. f_equal. lia.
  - rewrite ring_chunk_length by (exact Hwf1 || lia). lia.
  - rewrite ring_chunk_length by (exact Hwf || lia). lia.
  - rewrite ring_chunk_length, length_app by (exact Hwf || lia). lia.
Qed.

(** * Properties of the touch buttons *)

Lemma u16_testbit (v i : Z) :
  0 <= i -> Z.testbit (u16 v) i = Z.testbit v i && (i <? 16).
Proof.
  intros Hi. unfold u16. change 65536 with (2 ^ 16).
  rewrite <- Z.land_ones, Z.land_spec by lia. f_equal.
  destruct (Z.ltb_spec i 16).
  - apply Z.ones_spec_low. lia.
  - apply Z.ones_spec_high. lia.
Qed.

Lemma bit_testbit (k j : Z) : 0 <= k -> Z.testbit (Z.shiftl 1 k) j = (k =? j).
Proof. intros Hk. rewrite Z.shiftl_1_l. apply Z.pow2_bits_eqb. exact Hk. Qed.

Lemma lor_byte (a c : Z) :
  0 <= a < 256 -> 0 <= c < 256 -> 0 <= Z.lor a c < 256.
Proof.
  intros Ha Hc. replace (Z.lor a c) with (u8 (Z.lor a c)); [apply u8_range|].
  bitwise. bit_index i.
  9: rewrite (byte_high a), (byte_high c) by (assumption || lia).
  all: bit_cases; reflexivity.
Qed.

Section TouchProperties.
Context {SDL_Point SDL_Rect : Type}.
Variable SDL_PointInRect : SDL_Point -> SDL_Rect -> bool.
Variables (type : FingerEvent) (finger : Z) (touch_point : SDL_Point).
Implicit Types button : VirtualButton SDL_Rect.
Implicit Types buttons : list (VirtualButton SDL_Rect).

Lemma touch_button_cases (cs : Z) (tob : bool) button :
  touch_button SDL_PointInRect type finger touch_point (cs, tob) button =
    ((if presses SDL_PointInRect type touch_point button then u16 (Z.lor cs (nes_bit button))
      else if releases type finger button then u16 (Z.land cs (Z.lnot (nes_bit button)))
      else cs,
      tob || SDL_PointInRect touch_point (rect button)),
     if presses SDL_PointInRect type touch_point button then set_fingerId button (to_int finger)
     else if releases type finger button then set_fingerId button (-1)
     else button).
Proof.
  unfold touch_button, presses, releases.
  destruct (SDL_PointInRect touch_point (rect button)), type,
    (fingerId button =? -1), (fingerId button =? finger); cbn;
    rewrite ?orb_true_r, ?orb_false_r; reflexivity.
Qed.

(** One step on the button that owns bit [k]: the other bits of the mask
    keep their values, and bit [k] follows the button. *)
Lemma touch_button_bits (cs : Z) (tob : bool) button (k j : Z) :
  nes_bit button = Z.shiftl 1 k -> 0 <= k < 16 -> 0 <= j < 16 ->
  let r := touch_button SDL_PointInRect type finger touch_point (cs, tob) button in
  Z.testbit (fst (fst r)) j =
    if k =? j
    then (if presses SDL_PointInRect type touch_point button then true
          else if releases type finger button then false else Z.testbit cs j)
    else Z.testbit cs j.
Proof.
  intros Hb Hk Hj r. subst r. rewrite touch_button_cases. cbn [fst].
  rewrite Hb.
  destruct (presses SDL_PointInRect type touch_point button); [|destruct (releases type finger button)].
  { rewrite u16_testbit, Z.lor_spec, bit_testbit by lia.
    replace (j <? 16) with true by lia.
    destruct (k =? j); rewrite ?orb_true_r, ?orb_false_r, andb_true_r; reflexivity. }
  { rewrite u16_testbit, Z.land_spec, Z.lnot_spec, bit_testbit by lia.
    replace (j <? 16) with true by lia.
    destruct (k =? j); cbn; rewrite ?andb_false_r, ?andb_true_r; reflexivity. }
  destruct (k =? j); reflexivity.
Qed.

Lemma touch_button_held (cs : Z) (tob : bool) button :
  to_int finger <> -1 ->
  let r := touch_button SDL_PointInRect type finger touch_point (cs, tob) button in
  held (snd r) =
    (if presses SDL_PointInRect type touch_point button then true
     else if releases type finger button then false else held button) /\
  nes_bit (snd r) = nes_bit button /\
  rect (snd r) = rect button.
Proof.
  intros Hf r. subst r. rewrite touch_button_cases. cbn [snd].
  destruct (presses SDL_PointInRect type touch_point button); [|destruct (releases type finger button)]; cbn;
    repeat split.
  unfold held. cbn. replace (to_int finger =? -1) with false by lia. reflexivity.
Qed.

(** The loop over a table: the table keeps its bits, the bits of the mask
    that no button owns keep their values, and the mask still agrees with
    the table if it did. *)
Lemma touch_buttons_spec buttons : forall (bits : list Z) (cs : Z) (tob : bool),
  table_wf bits buttons ->
  to_int finger <> -1 ->
  let r := touch_buttons SDL_PointInRect type finger touch_point (cs, tob) buttons in
  table_wf bits (snd r) /\
  (forall j, 0 <= j < 16 -> j ∉ bits ->
     Z.testbit (fst (fst r)) j = Z.testbit cs j) /\
  (mask_agrees cs bits buttons -> mask_agrees (fst (fst r)) bits (snd r)).
Proof.
  induction buttons as [|button rest IH]; intros bits cs tob Hwf Hf r; subst r.
  - cbn. split; [exact Hwf|]. split; auto.
  - destruct Hwf as (Hnd & Hr & Hb).
    destruct bits as [|k ks]; [discriminate|].
    cbn [fmap list_fmap] in Hb. injection Hb as Hbk Hbks.
    apply NoDup_cons in Hnd as [Hk Hnd].
    apply Forall_cons in Hr as [Hkr Hr].
    cbn [touch_buttons].
    pose proof (touch_button_bits cs tob button k) as Hbits.
    pose proof (touch_button_held cs tob button Hf) as (Hh & Hn & _).
    destruct (touch_button SDL_PointInRect type finger touch_point (cs, tob) button)
      as [[cs1 tob1] button1]. cbn [fst snd] in *.
    specialize (IH ks cs1 tob1 (conj Hnd (conj Hr Hbks)) Hf).
    destruct (touch_buttons SDL_PointInRect type finger touch_point (cs1, tob1) rest)
      as [[cs2 tob2] rest2]. cbn [fst snd] in *.
    destruct IH as ((Hnd2 & Hr2 & Hb2) & Hout & Hagree).
    split; [|split].
    + split; [apply NoDup_cons; auto|].
      split; [apply Forall_cons; auto|].
      cbn [fmap list_fmap]. rewrite Hn, Hbk, Hb2. reflexivity.
    + intros j Hj Hnot. apply not_elem_of_cons in Hnot as [Hjk Hjks].
      rewrite Hout by assumption. rewrite Hbits by assumption.
      replace (k =? j) with false by lia. reflexivity.
    + unfold mask_agrees. cbn [fmap list_fmap]. intros Hm.
      injection Hm as Hmk Hmks. f_equal.
      * rewrite Hout by assumption. rewrite Hbits by (assumption || lia).
        rewrite Z.eqb_refl, Hh, Hmk. reflexivity.
      * apply Hagree. unfold mask_agrees. rewrite <- Hmks.
        apply list_fmap_ext. intros i j Hin.
        assert (Hjr : 0 <= j < 16) by (exact (Forall_lookup_1 _ _ _ _ Hr Hin)).
        apply list_elem_of_lookup_2 in Hin.
        rewrite Hbits by assumption.
        destruct (Z.eqb_spec k j) as [-> | _]; [contradiction | reflexivity].
Qed.

(** The flag [touch_on_button] after the loop. *)
Lemma touch_buttons_flag buttons : forall (cs : Z) (tob : bool),
  snd (fst (touch_buttons SDL_PointInRect type finger touch_point (cs, tob) buttons)) =
  tob || existsb (fun button => SDL_PointInRect touch_point (rect button)) buttons.
Proof.
  induction buttons as [|button rest IH]; intros cs tob.
  - cbn. rewrite orb_false_r. reflexivity.
  - cbn [touch_buttons existsb]. rewrite touch_button_cases.
    match goal with
    | |- context [touch_buttons _ _ _ _ (?c, ?t) rest] =>
        specialize (IH c t);
        destruct (touch_buttons SDL_PointInRect type finger touch_point (c, t) rest)
          as [[cs2 tob2] rest2]
    end.
    cbn [fst snd] in *. rewrite IH, orb_assoc. reflexivity.
Qed.

(** A button on which another finger is recorded is left as it is, and the
    step on it leaves the mask as it is. *)
Lemma touch_button_other_finger (cs : Z) (tob : bool) button :
  fingerId button <> -1 ->
  fingerId button <> finger ->
  fst (fst (touch_button SDL_PointInRect type finger touch_point (cs, tob) button)) = cs /\
  snd (touch_button SDL_PointInRect type finger touch_point (cs, tob) button) = button.
Proof.
  intros H1 H2. rewrite touch_button_cases. unfold presses, releases.
  replace (fingerId button =? -1) with false by lia.
  replace (fingerId button =? finger) with false by lia.
  rewrite !andb_false_r. split; reflexivity.
Qed.

Lemma touch_buttons_lookup buttons : forall (cs : Z) (tob : bool) (i : nat) button,
  buttons !! i = Some button ->
  exists cs' tob',
    snd (touch_buttons SDL_PointInRect type finger touch_point (cs, tob) buttons) !! i =
    Some (snd (touch_button SDL_PointInRect type finger touch_point (cs', tob') button)).
Proof.
  induction buttons as [|first rest IH]; intros cs tob i button Hi.
  - discriminate.
  - cbn [touch_buttons].
    destruct (touch_button SDL_PointInRect type finger touch_point (cs, tob) first)
      as [[cs1 tob1] first1] eqn:E1.
    destruct i as [|i].
    + injection Hi as ->.
      destruct (touch_buttons SDL_PointInRect type finger touch_point (cs1, tob1) rest)
        as [[cs2 tob2] rest2].
      exists cs, tob. rewrite E1. reflexivity.
    + destruct (IH cs1 tob1 i button Hi) as (cs' & tob' & H).
      destruct (touch_buttons SDL_PointInRect type finger touch_point (cs1, tob1) rest)
        as [[cs2 tob2] rest2].
      exists cs', tob'. exact H.
Qed.

(** The mask stays a byte when every button owns one of the bits 0 to 7. *)
Lemma touch_buttons_byte buttons : forall (bits : list Z) (cs : Z) (tob : bool),
  (nes_bit <$> buttons) = (Z.shiftl 1 <$> bits) ->
  Forall (fun k => 0 <= k < 8) bits ->
  0 <= cs < 256 ->
  0 <= fst (fst (touch_buttons SDL_PointInRect type finger touch_point (cs, tob) buttons))
    < 256.
Proof.
  induction buttons as [|button rest IH]; intros bits cs tob Hb Hr Hcs.
  - exact Hcs.
  - destruct bits as [|k ks]; [discriminate|].
    cbn [fmap list_fmap] in Hb. injection Hb as Hbk Hbks.
    apply Forall_cons in Hr as [Hk Hr].
    cbn [touch_buttons]. rewrite touch_button_cases, Hbk.
    match goal with
    | |- context [touch_buttons _ _ _ _ (?c, ?t) rest] =>
        specialize (IH ks c t Hbks Hr);
        destruct (touch_buttons SDL_PointInRect type finger touch_point (c, t) rest)
          as [[cs2 tob2] rest2]
    end.
    cbn [fst snd] in *. apply IH.
    assert (Hbit : 0 <= Z.shiftl 1 k < 256).
    { assert (k = 0 \/ k = 1 \/ k = 2 \/ k = 3 \/ k = 4 \/ k = 5 \/ k = 6 \/ k = 7)
        as [->|[->|[->|[->|[->|[->|[->| ->]]]]]]] by lia;
        vm_compute; (split; [discriminate | reflexivity]). }
    assert (Hor : 0 <= Z.lor cs (Z.shiftl 1 k) < 256).
    { apply lor_byte; assumption. }
    assert (Hand : 0 <= Z.land cs (Z.lnot (Z.shiftl 1 k)) < 256).
    { rewrite Z.land_comm. apply land_mask_byte. exact Hcs. }
    destruct (presses SDL_PointInRect type touch_point button); [|destruct (releases type finger button)];
      [ | | exact Hcs]; unfold u16; rewrite Z.mod_small; lia.
Qed.

(** X16: a touch event keeps the controller bitmask and the table of
    buttons in step.  If every button owns its own bit, and the bit of each
    button is set exactly when a finger is recorded on it, the same holds
    after the loop over the buttons, for a finger going down or up, at any
    point, provided the finger's identifier, once stored in an [int], is
    not -1 (the value that marks a free button). *)
Theorem touch_keeps_mask_and_table_in_step buttons (bits : list Z) (cs : Z)
    (tob : bool) :
  table_wf bits buttons ->
  mask_agrees cs bits buttons ->
  to_int finger <> -1 ->
  let r := touch_buttons SDL_PointInRect type finger touch_point (cs, tob) buttons in
  table_wf bits (snd r) /\
  mask_agrees (fst (fst r)) bits (snd r).
Proof.
  intros Hwf Hm Hf r. subst r.
  destruct (touch_buttons_spec buttons bits cs tob Hwf Hf) as (H1 & _ & H3).
  split; [exact H1 | exact (H3 Hm)].
Qed.

(** X17: when a finger goes up, every button that finger was recorded on
    is freed, whether the finger is lifted on the button or after it has
    slid off it, and afterwards no button records that finger. *)
Theorem lifting_a_finger_frees_its_buttons buttons (cs : Z) (tob : bool)
    (i : nat) button :
  is_FINGERUP type = true ->
  finger <> -1 ->
  buttons !! i = Some button ->
  fingerId button = finger ->
  let r := touch_buttons SDL_PointInRect type finger touch_point (cs, tob) buttons in
  snd r !! i = Some (set_fingerId button (-1)) /\
  Forall (fun released => fingerId released <> finger) (snd r).
Proof.
  intros Hup Hf Hi Hid r. subst r. split.
  - destruct (touch_buttons_lookup buttons cs tob i button Hi) as (cs' & tob' & ->).
    rewrite touch_button_cases. cbn [snd]. unfold presses, releases.
    rewrite Hup, Hid, Z.eqb_refl.
    replace (finger =? -1) with false by lia. rewrite andb_false_r. reflexivity.
  - clear i button Hi Hid. revert cs tob.
    induction buttons as [|first rest IH]; intros cs tob; [constructor|].
    cbn [touch_buttons]. rewrite touch_button_cases.
    match goal with
    | |- context [touch_buttons _ _ _ _ (?c, ?t) rest] =>
        specialize (IH c t);
        destruct (touch_buttons SDL_PointInRect type finger touch_point (c, t) rest)
          as [[cs2 tob2] rest2]
    end.
    cbn [snd] in *. constructor; [|exact IH].
    unfold presses, releases. destruct type; [discriminate|]. cbn.
    rewrite andb_false_r.
    destruct (Z.eqb_spec (fingerId first) finger); cbn; lia.
Qed.

(** X18: an event of one finger does not disturb a button held by another:
    the button keeps the finger recorded on it, and, when the mask and the
    table were in step, its bit stays set. *)
Theorem other_fingers_keep_their_buttons buttons (bits : list Z) (cs : Z)
    (tob : bool) (i : nat) button (k : Z) :
  table_wf bits buttons ->
  mask_agrees cs bits buttons ->
  to_int finger <> -1 ->
  buttons !! i = Some button ->
  bits !! i = Some k ->
  fingerId button <> -1 ->
  fingerId button <> finger ->
  let r := touch_buttons SDL_PointInRect type finger touch_point (cs, tob) buttons in
  snd r !! i = Some button /\
  Z.testbit (fst (fst r)) k = true.
Proof.
  intros Hwf Hm Hf Hi Hk H1 H2 r. subst r.
  destruct (touch_buttons_spec buttons bits cs tob Hwf Hf) as (_ & _ & H3).
  specialize (H3 Hm).
  destruct (touch_buttons_lookup buttons cs tob i button Hi) as (cs' & tob' & Hl).
  destruct (touch_button_other_finger cs' tob' button H1 H2) as (_ & Hsame).
  rewrite Hsame in Hl. split; [exact Hl|].
  unfold mask_agrees in H3.
  assert (Hi' : (Z.testbit
                   (fst (fst (touch_buttons SDL_PointInRect type finger touch_point
                                (cs, tob) buttons))) <$> bits) !! i =
                Some (held button)).
  { rewrite H3, list_lookup_fmap, Hl. reflexivity. }
  rewrite list_lookup_fmap, Hk in Hi'. cbn in Hi'. injection Hi' as ->.
  unfold held. replace (fingerId button =? -1) with false by lia. reflexivity.
Qed.

(** X19: the flag [touch_on_button], which keeps a touch on a button from
    aiming or firing the light gun, is set by the loop exactly when the
    point lies in the rectangle of some button, whatever the event does to
    the buttons. *)
Theorem touch_on_button_reports_a_hit buttons (cs : Z) (tob : bool) :
  snd (fst (touch_buttons SDL_PointInRect type finger touch_point (cs, tob) buttons)) =
  tob || existsb (fun button => SDL_PointInRect touch_point (rect button)) buttons.
Proof. apply touch_buttons_flag. Qed.
End TouchProperties.


Lemma fmap_const_replicate {A B : Type} (f : A -> B) (c : B) (l : list A) :
  (forall x, f x = c) -> f <$> l = replicate (length l) c.
Proof.
  intros H. induction l as [|x l IH]; cbn; [reflexivity|].
  rewrite H, IH. reflexivity.
Qed.

(** X20: when every button owns one of the bits 0 to 7, as in
    [virtual_controller], a touch event keeps the controller bitmask within
    a byte.  The strobe pulse then loads 0 into port 2's register, and
    without a light gun every read of 0x4017 returns 0x40: the second pad
    never has a button down. *)
Theorem second_pad_is_idle {SDL_Point SDL_Rect Cartridge PPU APU CPU : Type}
    (SDL_PointInRect : SDL_Point -> SDL_Rect -> bool)
    (dev : Collaborators Cartridge PPU APU CPU) (b : Bus Cartridge PPU APU CPU)
    (type : FingerEvent) (finger : Z) (touch_point : SDL_Point)
    (buttons : list (VirtualButton SDL_Rect)) (bits : list Z)
    (cs : Z) (tob : bool) (n : nat) :
  (nes_bit <$> buttons) = (Z.shiftl 1 <$> bits) ->
  Forall (fun k => 0 <= k < 8) bits ->
  0 <= cs < 256 ->
  zapper_connected b = false ->
  let cs' :=
    fst (fst (touch_buttons SDL_PointInRect type finger touch_point (cs, tob) buttons)) in
  0 <= cs' < 256 /\
  shift_register_controller2 (update_controller_state dev cs' b) = 0 /\
  fst (read_times dev n (update_controller_state dev cs' b) 0x4017) =
    replicate n 0x40.
Proof.
  intros Hb Hr Hcs Hz cs'.
  assert (Hbyte : 0 <= cs' < 256)
    by (apply (touch_buttons_byte _ _ _ _ buttons bits); assumption).
  assert (Hhigh : Z.land (Z.shiftr cs' 8) 0xFF = 0).
  { rewrite Z.shiftr_div_pow2 by lia. change (2 ^ 8) with 256.
    rewrite Z.div_small by exact Hbyte. reflexivity. }
  split; [exact Hbyte|].
  rewrite update_controller_state_eq, Hz, Hhigh. split; [reflexivity|].
  rewrite shift_out_port2; [|reflexivity|reflexivity|unfold byte_range; cbn; lia].
  cbn [shift_register_controller2].
  rewrite (fmap_const_replicate _ 0x40), length_seq; [reflexivity|].
  intros i. unfold pad_bit. rewrite Z.bits_0. reflexivity.
Qed.

(** X21: for a touch inside the game picture ([0 <= touch_x < window_w] and
    [padding <= touch_y < window_h], which is what the test against
    [game_screen_rect] on line 331 admits) in a window less than 2^23
    pixels wide and high, the products on line 333 fit an [int] and the
    coordinates passed to the light gun lie on the emulated screen, the
    column in [[0, 256)] and the row in [[0, 240)]. *)
Theorem zapper_coordinates_are_on_screen (touch_x touch_y padding window_w window_h : Z) :
  0 <= touch_x < window_w ->
  0 <= padding <= touch_y ->
  touch_y < window_h ->
  window_w < 2 ^ 23 ->
  window_h < 2 ^ 23 ->
  touch_x * 256 < 2 ^ 31 /\
  (touch_y - padding) * 240 < 2 ^ 31 /\
  0 <= zapper_column touch_x window_w < 256 /\
  0 <= zapper_row touch_y padding window_h < 240.
Proof.
  intros Hx Hp Hy Hw Hh. unfold zapper_column, zapper_row.
  change (2 ^ 23) with 8388608 in *. change (2 ^ 31) with 2147483648.
  split; [lia|]. split; [lia|].
  rewrite !Z.quot_div_nonneg by lia.
  split; (split; [apply Z.div_pos; lia | apply Z.div_lt_upper_bound; lia]).
Qed.

(** * Runs of the embedding *)

(** One read in each range, on the recording collaborators. *)
Example read_PPU_mirror :
  cpu_reads recorder rec_bus 0x3FFD = (0xA5, set_ppu rec_bus [Read 5]).
Proof. reflexivity. Qed.

Example read_APU_status :
  cpu_reads recorder rec_bus 0x4015 = (0xA5, set_apu rec_bus [Read 0x4015]).
Proof. reflexivity. Qed.

Example read_cartridge :
  cpu_reads recorder rec_bus 0x8000 = (0xA5, set_cart rec_bus [Read 0x8000]).
Proof. reflexivity. Qed.

Example read_below_PPU : cpu_reads recorder rec_bus 0x07FF = (0x00, rec_bus).
Proof. reflexivity. Qed.

Example read_test_mode_gap : cpu_reads recorder rec_bus 0x401F = (0x00, rec_bus).
Proof. reflexivity. Qed.

(** The strobe pulse that main.cpp sends after a touch event (lines 347 and
    348), with B and Start held, and the eight reads a game makes. *)
Example pad_B_Start :
  fst (read_times recorder 8
         (cpu_writes recorder 0x0A (cpu_writes recorder 0x0A rec_bus 0x4016 1)
            0x4016 0) 0x4016) =
  [0x40; 0x41; 0x40; 0x41; 0x40; 0x40; 0x40; 0x40].
Proof. reflexivity. Qed.

(** Aim, release, and the PPU reporting a hit. *)
Example zapper_shot :
  let b := fire_zapper recorder (update_zapper_coordinates rec_bus 128 120) in
  ppu b = [TargetHit 128 120] /\
  shift_register_controller2 b = 0 /\
  shift_register_controller2 (set_light_sensed b false) = 0x08 /\
  shift_register_controller2 (set_light_sensed b true) = 0.
Proof. repeat split. Qed.

(** Twelve samples written across the end of the buffer and read back. *)
Example across_the_end :
  let samples := [1; 2; 3; 4; 5; 6; 7; 8; 9; 10; 11; 12] in
  let filled := produce quiet_audio samples in
  write_pos filled = 4 /\
  available_data filled = 12 /\
  fst (audio_callback filled (replicate 12 (-1)) 24) = samples /\
  read_pos (snd (audio_callback filled (replicate 12 (-1)) 24)) = 4 /\
  fst (audio_callback filled (replicate 13 (-1)) 26) = replicate 13 0.
Proof. vm_compute. repeat split. Qed.

(** * The theorems at concrete inputs *)

Transparent BUFFER_SIZE.

(** C9 on a bus that has just latched the buttons A and B: three reads of
    port 1 keep returning button A. *)
Lemma latched_reads_do_not_shift_at_AB :
  let b := cpu_writes recorder 0x03 rec_bus 0x4016 1 in
  strobe b = true /\
  zapper_connected b = false /\
  read_times recorder 3 b 0x4016 = ([0x41; 0x41; 0x41], b).
Proof.
  intros b.
  split; [reflexivity|]. split; [reflexivity|].
  exact (proj1 (proj2 (proj2
           (latched_reads_do_not_shift recorder b 3 eq_refl eq_refl)))).
Defined.

(** C7 on a bus with the light gun connected and 0x18 on its line. *)
Lemma zapper_read_is_direct_at_0x18 :
  let b := mkBus [] [] [] tt false 0 0x18 true (Zapper.mk 10 20 true false) false 0
             : RecBus in
  zapper_connected b = true /\
  byte_range (shift_register_controller2 b) /\
  fst (cpu_reads recorder b 0x4017) = 0x58 /\
  Zapper.light_sensed (zapper (snd (cpu_reads recorder b 0x4017))) = true.
Proof.
  intros b.
  assert (Hr : byte_range (shift_register_controller2 b))
    by (unfold byte_range; cbn; lia).
  pose proof (zapper_read_is_direct recorder b 0 eq_refl Hr) as (H & _ & Hl & _).
  split; [reflexivity|]. split; [exact Hr|].
  rewrite H. split; [reflexivity | exact Hl].
Defined.

(** C2 with the buttons A, Select and Right held. *)
Lemma controller_serial_protocol_at_0x85 :
  zapper_connected rec_bus = false /\
  fst (read_times recorder 9
         (cpu_writes recorder 0x85 (cpu_writes recorder 0x85 rec_bus 0x4016 1)
            0x4016 0) 0x4016) =
    [0x41; 0x40; 0x41; 0x40; 0x40; 0x40; 0x40; 0x41; 0x40].
Proof.
  split; [reflexivity|].
  exact (proj1 (controller_serial_protocol recorder 0x85 rec_bus eq_refl)).
Defined.

(** C1 at an address between the APU and the cartridge. *)
Lemma address_decoding_at_0x4018 :
  unmapped 0x4018 = true /\
  cpu_reads recorder rec_bus 0x4018 = (0x00, rec_bus) /\
  cpu_writes recorder 0xFF rec_bus 0x4018 0x77 = rec_bus.
Proof.
  split; [reflexivity|].
  exact (proj2 (proj2 (proj2
           (address_decoding recorder 0xFF rec_bus 0x4018 0x77))) eq_refl).
Defined.

(** C4 with sources 0 and 2, each asserting and then acknowledging. *)
Lemma irq_aggregation_at_0_2 :
  let h := [Assert 0; Assert 2; Ack 0; Ack 2] in
  let both := assert_irq (assert_irq rec_bus (IRQ_source 0)) (IRQ_source 2) in
  is_source 0 /\ is_source 2 /\ 0 <> 2 /\
  Forall (fun c => is_source (irq_call_source c)) h /\
  Z.testbit (get_irq both) 0 = true /\
  Z.testbit (get_irq both) 2 = true /\
  Z.testbit (get_irq (ack_irq both (IRQ_source 0))) 2 = true /\
  (get_irq (irq_run (set_IRQ_line rec_bus 0) h) = 0 <->
   forall k, is_source k -> outstanding h k = false).
Proof.
  intros h both.
  assert (H0 : is_source 0) by (unfold is_source; lia).
  assert (H2 : is_source 2) by (unfold is_source; lia).
  assert (Hne : 0 <> 2) by discriminate.
  assert (Hh : Forall (fun c => is_source (irq_call_source c)) h)
    by (repeat constructor; unfold is_source; cbn; lia).
  pose proof (irq_aggregation rec_bus 0 2 h H0 H2 Hne Hh)
    as (_ & _ & _ & Ha & Hb & _ & Hc & Hd).
  split; [exact H0|]. split; [exact H2|]. split; [exact Hne|].
  split; [exact Hh|]. split; [exact Ha|]. split; [exact Hb|].
  split; [exact Hc | exact Hd].
Defined.

(** C5 on a drained buffer asked for four samples. *)
Lemma underrun_is_silence_at_4 :
  0 <= 8 /\
  available_data quiet_audio < 8 / 2 /\
  (Z.to_nat (8 / 2) <= length [5; 6; 7; 8])%nat /\
  fst (audio_callback quiet_audio [5; 6; 7; 8] 8) = [0; 0; 0; 0] /\
  read_pos (snd (audio_callback quiet_audio [5; 6; 7; 8] 8)) = 8184.
Proof.
  assert (H1 : 0 <= 8) by lia.
  assert (H2 : available_data quiet_audio < 8 / 2) by (vm_compute; reflexivity).
  assert (H3 : (Z.to_nat (8 / 2) <= length [5; 6; 7; 8])%nat) by (vm_compute; lia).
  pose proof (underrun_is_silence quiet_audio [5; 6; 7; 8] 8 H1 H2 H3)
    as (Ht & _ & _ & _ & Hr).
  split; [exact H1|]. split; [exact H2|]. split; [exact H3|].
  split; [exact Ht | exact Hr].
Defined.

(** C6 with twelve samples written eight places before the end of the
    buffer: the read range crosses the end. *)
Lemma ring_buffer_round_trip_across_end :
  let samples := [1; 2; 3; 4; 5; 6; 7; 8; 9; 10; 11; 12] in
  let output := replicate 12 (-1) in
  audio_wf quiet_audio /\
  read_pos quiet_audio = write_pos quiet_audio /\
  (read_pos quiet_audio + 12 >? BUFFER_SIZE) = true /\
  take 12 (fst (audio_callback (produce quiet_audio samples) output 24)) = samples /\
  read_pos (snd (audio_callback (produce quiet_audio samples) output 24)) = 4.
Proof.
  intros samples output.
  assert (Hwf : audio_wf quiet_audio)
    by (unfold audio_wf; vm_compute; repeat split; discriminate).
  assert (Hn : 0 < Z.of_nat (length samples) < BUFFER_SIZE)
    by (vm_compute; split; reflexivity).
  assert (Hout : (length samples <= length output)%nat) by (vm_compute; lia).
  pose proof (ring_buffer_round_trip quiet_audio samples output Hwf eq_refl Hn Hout)
    as (Ht & _ & _ & Hr & _).
  split; [exact Hwf|]. split; [reflexivity|]. split; [reflexivity|].
  split; [exact Ht | exact Hr].
Defined.

(** * The further properties at concrete inputs *)

Lemma serial_reads_of_any_length_at_0x8103 :
  zapper_connected rec_bus = false /\
  fst (read_times recorder 10 (update_controller_state recorder 0x8103 rec_bus) 0x4016) =
    [0x41; 0x41; 0x40; 0x40; 0x40; 0x40; 0x40; 0x40; 0x40; 0x40] /\
  fst (read_times recorder 10 (update_controller_state recorder 0x8103 rec_bus) 0x4017) =
    [0x41; 0x40; 0x40; 0x40; 0x40; 0x40; 0x40; 0x41; 0x40; 0x40].
Proof.
  split; [reflexivity|].
  exact (serial_reads_of_any_length recorder 0x8103 rec_bus 10 eq_refl).
Defined.

Lemma port_reads_leave_the_gun_at_0x4017 :
  is_controller_port 0x4017 = true /\
  Zapper.trigger (zapper (snd (cpu_reads recorder rec_bus 0x4017))) =
    Zapper.trigger (zapper rec_bus).
Proof.
  split; [reflexivity|].
  exact (proj1 (port_reads_leave_the_gun recorder rec_bus 0x4017 eq_refl)).
Defined.


Lemma aim_pulls_the_trigger_line_at_0xFF :
  let b := mkBus [] [] [] tt false 0 0xFF true (Zapper.mk 0 0 false false) false 0
             : RecBus in
  zapper_connected b = true /\
  fst (cpu_reads recorder
         (update_controller_state recorder 0x0100 (update_zapper_coordinates b 128 120))
         0x4017) = 0xF6.
Proof.
  intros b. split; [reflexivity|].
  exact (proj2 (proj2 (proj2 (proj2 (proj2 (proj2
           (aim_pulls_the_trigger_line recorder b 128 120 0x0100 eq_refl))))))).
Defined.

Lemma sensor_bit_reaches_the_port_after_a_hit :
  let b := mkBus [] [] [] tt false 0 0x18 true (Zapper.mk 0 0 false true) false 0
             : RecBus in
  zapper_connected b = true /\
  Z.testbit (fst (cpu_reads recorder (set_light_sensed b true) 0x4017)) 3 = false /\
  Zapper.light_sensed
    (zapper (snd (cpu_reads recorder (set_light_sensed b true) 0x4017))) = true.
Proof.
  intros b. split; [reflexivity|].
  pose proof (sensor_bit_reaches_the_port recorder b false true eq_refl)
    as (H1 & _ & H3 & _).
  split; [exact H1 | exact H3].
Defined.

Lemma reads_after_soft_reset_at_0x4017 :
  is_controller_port 0x4017 = true /\
  fst (read_times recorder 3
         (soft_reset (update_controller_state recorder 0xFFFF rec_bus)) 0x4017) =
    [0x40; 0x40; 0x40].
Proof.
  split; [reflexivity|].
  exact (reads_after_soft_reset recorder
           (update_controller_state recorder 0xFFFF rec_bus) 0x4017 3 eq_refl).
Defined.

Lemma irq_calls_do_not_count_at_1_2 :
  is_source 1 /\ is_source 2 /\ 1 <> 2 /\
  ack_irq (assert_irq (assert_irq rec_bus 0x06) 0x06) 0x06 = ack_irq rec_bus 0x06.
Proof.
  assert (H1 : is_source 1) by (unfold is_source; lia).
  assert (H2 : is_source 2) by (unfold is_source; lia).
  assert (Hne : 1 <> 2) by discriminate.
  split; [exact H1|]. split; [exact H2|]. split; [exact Hne|].
  exact (proj1 (proj2 (irq_calls_do_not_count rec_bus 0x06 0x01 1 2 H1 H2 Hne))).
Defined.

Lemma pattern_table_reads_are_bounded_at_0x2000 :
  0x2000 <= 0x2000 /\
  ppu_reads chr_recorder rec_bus 0x2000 = (0x00, rec_bus) /\
  cart (ppu_writes chr_recorder rec_bus 0x2000 0x33) = [Write 0x2000 0x33].
Proof.
  assert (H : 0x2000 <= 0x2000) by lia.
  pose proof (pattern_table_reads_are_bounded chr_recorder rec_bus rec_bus
                0x2000 0x33 H) as (H1 & _ & _ & H4 & _).
  split; [exact H|]. split; [exact H1 | exact H4].
Defined.

Lemma available_data_is_bounded_at_the_brim :
  audio_wf quiet_audio /\
  BUFFER_SIZE <= 16384 / 2 /\
  available_data quiet_audio = 0 /\
  snd (audio_callback quiet_audio [] 16384) = quiet_audio.
Proof.
  assert (Hwf : audio_wf quiet_audio)
    by (unfold audio_wf; vm_compute; repeat split; discriminate).
  assert (Hlen : BUFFER_SIZE <= 16384 / 2) by (vm_compute; discriminate).
  pose proof (available_data_is_bounded quiet_audio [] 16384 Hwf Hlen)
    as (_ & _ & _ & H4).
  split; [exact Hwf|]. split; [exact Hlen|]. split; [reflexivity|].
  rewrite H4. reflexivity.
Defined.

Lemma served_request_reads_the_ring_across_end :
  audio_wf ringing_audio /\
  0 <= 20 /\
  20 / 2 <= available_data ringing_audio /\
  (Z.to_nat (20 / 2) <= length (replicate 10 0))%nat /\
  read_pos (snd (audio_callback ringing_audio (replicate 10 0) 20)) =
    (read_pos ringing_audio + 20 / 2) mod BUFFER_SIZE /\
  available_data (snd (audio_callback ringing_audio (replicate 10 0) 20)) =
    available_data ringing_audio - 20 / 2.
Proof.
  assert (Hwf : audio_wf ringing_audio)
    by (unfold audio_wf; vm_compute; repeat split; discriminate).
  assert (H0 : 0 <= 20) by lia.
  assert (Hav : 20 / 2 <= available_data ringing_audio) by (vm_compute; discriminate).
  assert (Hout : (Z.to_nat (20 / 2) <= length (replicate 10 0))%nat)
    by (vm_compute; lia).
  pose proof (served_request_reads_the_ring ringing_audio (replicate 10 0) 20
                Hwf H0 Hav Hout) as (_ & _ & _ & H4 & H5).
  split; [exact Hwf|]. split; [exact H0|]. split; [exact Hav|].
  split; [exact Hout|]. split; [exact H4 | exact H5].
Defined.

Lemma callback_only_moves_read_pos_when_served :
  audio_wf ringing_audio /\
  audio_wf (snd (audio_callback ringing_audio (replicate 10 0) 20)) /\
  write_pos (snd (audio_callback ringing_audio (replicate 10 0) 20)) =
    write_pos ringing_audio.
Proof.
  assert (Hwf : audio_wf ringing_audio)
    by (unfold audio_wf; vm_compute; repeat split; discriminate).
  pose proof (callback_only_moves_read_pos ringing_audio (replicate 10 0) 20 Hwf)
    as (H1 & _ & H3 & _).
  split; [exact Hwf|]. split; [exact H1 | exact H3].
Defined.

Lemma two_requests_compose_across_end :
  audio_wf ringing_audio /\
  0 <= 5 /\ 0 <= 7 /\
  5 + 7 <= available_data ringing_audio /\
  length (replicate 5 0) = Z.to_nat 5 /\
  length (replicate 7 0) = Z.to_nat 7 /\
  audio_callback ringing_audio (replicate 5 0 ++ replicate 7 0) (2 * (5 + 7)) =
    (fst (audio_callback ringing_audio (replicate 5 0) (2 * 5)) ++
     fst (audio_callback (snd (audio_callback ringing_audio (replicate 5 0) (2 * 5)))
            (replicate 7 0) (2 * 7)),
     snd (audio_callback (snd (audio_callback ringing_audio (replicate 5 0) (2 * 5)))
            (replicate 7 0) (2 * 7))).
Proof.
  assert (Hwf : audio_wf ringing_audio)
    by (unfold audio_wf; vm_compute; repeat split; discriminate).
  assert (H1 : 0 <= 5) by lia.
  assert (H2 : 0 <= 7) by lia.
  assert (Hav : 5 + 7 <= available_data ringing_audio) by (vm_compute; discriminate).
  split; [exact Hwf|]. split; [exact H1|]. split; [exact H2|].
  split; [exact Hav|]. split; [reflexivity|]. split; [reflexivity|].
  exact (two_requests_compose ringing_audio (replicate 5 0) (replicate 7 0) 5 7
           Hwf H1 H2 Hav eq_refl eq_refl).
Defined.

Lemma virtual_controller_wf : table_wf virtual_controller_bits virtual_controller.
Proof.
  split; [|split].
  - apply (bool_decide_unpack _). vm_compute. reflexivity.
  - repeat constructor; lia.
  - reflexivity.
Defined.

Lemma touch_keeps_mask_and_table_in_step_on_A :
  table_wf virtual_controller_bits virtual_controller /\
  mask_agrees 0 virtual_controller_bits virtual_controller /\
  to_int 0 <> -1 /\
  mask_agrees
    (fst (fst (touch_buttons point_in_rect4 SDL_FINGERDOWN 0 (680, 600) (0, false)
                 virtual_controller)))
    virtual_controller_bits table_with_A_held.
Proof.
  assert (Hf : to_int 0 <> -1) by (vm_compute; discriminate).
  split; [exact virtual_controller_wf|]. split; [reflexivity|]. split; [exact Hf|].
  exact (proj2 (touch_keeps_mask_and_table_in_step point_in_rect4 SDL_FINGERDOWN 0
                  (680, 600) virtual_controller virtual_controller_bits 0 false
                  virtual_controller_wf eq_refl Hf)).
Defined.

Lemma lifting_a_finger_frees_its_buttons_off_A :
  is_FINGERUP SDL_FINGERUP = true /\
  0 <> -1 /\
  table_with_A_held !! 4%nat = Some button_A_held /\
  fingerId button_A_held = 0 /\
  snd (touch_buttons point_in_rect4 SDL_FINGERUP 0 (10, 10) (1, false)
         table_with_A_held) !! 4%nat = Some (set_fingerId button_A_held (-1)).
Proof.
  assert (Hf : 0 <> -1) by discriminate.
  split; [reflexivity|]. split; [exact Hf|]. split; [reflexivity|].
  split; [reflexivity|].
  exact (proj1 (lifting_a_finger_frees_its_buttons point_in_rect4 SDL_FINGERUP 0
                  (10, 10) table_with_A_held 1 false 4 button_A_held
                  eq_refl Hf eq_refl eq_refl)).
Defined.

Lemma table_with_A_held_wf : table_wf virtual_controller_bits table_with_A_held.
Proof.
  split; [|split].
  - apply (bool_decide_unpack _). vm_compute. reflexivity.
  - repeat constructor; lia.
  - reflexivity.
Defined.

Lemma other_fingers_keep_their_buttons_on_A :
  table_wf virtual_controller_bits table_with_A_held /\
  mask_agrees 1 virtual_controller_bits table_with_A_held /\
  to_int 1 <> -1 /\
  table_with_A_held !! 4%nat = Some button_A_held /\
  virtual_controller_bits !! 4%nat = Some 0 /\
  fingerId button_A_held <> -1 /\
  fingerId button_A_held <> 1 /\
  snd (touch_buttons point_in_rect4 SDL_FINGERDOWN 1 (680, 600) (1, false)
         table_with_A_held) !! 4%nat = Some button_A_held.
Proof.
  assert (Hf : to_int 1 <> -1) by (vm_compute; discriminate).
  assert (H1 : fingerId button_A_held <> -1) by (vm_compute; discriminate).
  assert (H2 : fingerId button_A_held <> 1) by (vm_compute; discriminate).
  split; [exact table_with_A_held_wf|]. split; [reflexivity|]. split; [exact Hf|].
  split; [reflexivity|]. split; [reflexivity|]. split; [exact H1|]. split; [exact H2|].
  exact (proj1 (other_fingers_keep_their_buttons point_in_rect4 SDL_FINGERDOWN 1
                  (680, 600) table_with_A_held virtual_controller_bits 1 false 4
                  button_A_held 0 table_with_A_held_wf eq_refl Hf eq_refl eq_refl
                  H1 H2)).
Defined.

Lemma second_pad_is_idle_with_the_table :
  (nes_bit <$> virtual_controller) = (Z.shiftl 1 <$> virtual_controller_bits) /\
  Forall (fun k => 0 <= k < 8) virtual_controller_bits /\
  0 <= 0 < 256 /\
  zapper_connected rec_bus = false /\
  shift_register_controller2
    (update_controller_state recorder
       (fst (fst (touch_buttons point_in_rect4 SDL_FINGERDOWN 0 (680, 600) (0, false)
                    virtual_controller))) rec_bus) = 0.
Proof.
  assert (Hr : Forall (fun k => 0 <= k < 8) virtual_controller_bits)
    by (repeat constructor; lia).
  assert (Hc : 0 <= 0 < 256) by lia.
  split; [reflexivity|]. split; [exact Hr|]. split; [exact Hc|].
  split; [reflexivity|].
  exact (proj1 (proj2 (second_pad_is_idle point_in_rect4 recorder rec_bus
                         SDL_FINGERDOWN 0 (680, 600) virtual_controller
                         virtual_controller_bits 0 false 0 eq_refl Hr Hc eq_refl))).
Defined.

Lemma zapper_coordinates_are_on_screen_at_the_corner :
  0 <= 1079 < 1080 /\ 0 <= 57 <= 2279 /\ 2279 < 2280 /\
  1080 < 2 ^ 23 /\ 2280 < 2 ^ 23 /\
  0 <= zapper_column 1079 1080 < 256 /\
  0 <= zapper_row 2279 57 2280 < 240.
Proof.
  assert (H1 : 0 <= 1079 < 1080) by lia.
  assert (H2 : 0 <= 57 <= 2279) by lia.
  assert (H3 : 2279 < 2280) by lia.
  assert (H4 : 1080 < 2 ^ 23) by reflexivity.
  assert (H5 : 2280 < 2 ^ 23) by reflexivity.
  pose proof (zapper_coordinates_are_on_screen 1079 2279 57 1080 2280 H1 H2 H3 H4 H5)
    as (_ & _ & Hc & Hr).
  split; [exact H1|]. split; [exact H2|]. split; [exact H3|].
  split; [exact H4|]. split; [exact H5|]. split; [exact Hc | exact Hr].
Defined.
